(** * Authors Haven (ah-backend-groot): reactions, favorites and ratings

    A shallow embedding of the views and serializers of
    [authors/apps/articles] that write to the database:

    - [ChoiceView.post]              (views.py, the like / dislike endpoints),
    - [FavoriteArticle.create] and
      [UnFavoriteArticle.destroy]    (views.py),
    - [RatingSerializer.create]      (serializers.py),
    - [ArticleSerializer.get_likes] and [get_dislikes] (serializers.py).

    The database is a record of tables, every table a list of rows in
    insertion order.  A view is a computation in a state-and-exception monad
    over the database: a statement that writes takes effect at once (Django's
    autocommit), and an exception leaves the writes made before it. *)

From Stdlib Require Import List String ZArith Lia Bool Arith PeanoNat.
From Stdlib Require QArith.
Import ListNotations.

Set Implicit Arguments.

(** ** Rows *)

(** Modelled from the spec: [models.py] is not among the sources; the vote
    value is the enumeration of section 3 (LIKE | DISLIKE), which
    [urls.py] names [LikeDislike.LIKE] and [LikeDislike.DISLIKE]. *)
Inductive Vote : Type := LIKE | DISLIKE.

(** The models that carry a [votes] generic relation in serializers.py. *)
Inductive ContentType : Type := ArticleType | CommentType.

(** [request.user]: Django's [AnonymousUser] or a row of the user table,
    given by its primary key. *)
Inductive RequestUser : Type :=
| AnonymousUser
| AuthenticatedUser (user_pk : nat).

Record Article : Type := mkArticle {
  article_pk : nat;
  slug : string;
  author_id : nat;
  favorited : bool;
  favorites_count : Z
}.

Record Comment : Type := mkComment {
  comment_pk : nat;
  comment_article : string;
  comment_user : nat
}.

Record LikeDislike : Type := mkLikeDislike {
  likedislike_pk : nat;
  content_type : ContentType;
  object_id : nat;
  user : nat;
  vote : Vote
}.

(** [score] is a decimal with two places; it is kept in hundredths. *)
Record Rating : Type := mkRating {
  rating_pk : nat;
  rating_author : nat;
  rating_article : nat;
  score : Z
}.

(** [favorites] is the many-to-many relation of a profile to its favorite
    articles: pairs (profile's user, article). *)
Record DB : Type := mkDB {
  users : list nat;
  articles : list Article;
  comments : list Comment;
  likedislikes : list LikeDislike;
  favorites : list (nat * nat);
  ratings : list Rating
}.

Definition set_likedislikes (rows : list LikeDislike) (db : DB) : DB :=
  mkDB (users db) (articles db) (comments db) rows (favorites db) (ratings db).

Definition set_articles (rows : list Article) (db : DB) : DB :=
  mkDB (users db) rows (comments db) (likedislikes db) (favorites db)
       (ratings db).

Definition set_favorites (rows : list (nat * nat)) (db : DB) : DB :=
  mkDB (users db) (articles db) (comments db) (likedislikes db) rows
       (ratings db).

Definition set_ratings (rows : list Rating) (db : DB) : DB :=
  mkDB (users db) (articles db) (comments db) (likedislikes db)
       (favorites db) rows.

(** ** Exceptions, results and the monad of views *)

Inductive Model : Type := ArticleModel | LikeDislikeModel | RatingModel.

Inductive Exn : Type :=
| DoesNotExist (m : Model)
| MultipleObjectsReturned (m : Model)
| Http404
| NotAuthenticated
| TypeError
| ValueError
| AttributeError.

Inductive Result (A : Type) : Type :=
| Ok (a : A)
| Raise (e : Exn).

Arguments Ok {A} a.
Arguments Raise {A} e.

Definition M (A : Type) : Type := DB -> Result A * DB.

Definition ret {A : Type} (a : A) : M A := fun db => (Ok a, db).

Definition raise {A : Type} (e : Exn) : M A := fun db => (Raise e, db).

Definition bind {A B : Type} (c : M A) (k : A -> M B) : M B :=
  fun db =>
    match c db with
    | (Ok a, db') => k a db'
    | (Raise e, db') => (Raise e, db')
    end.

Definition query {A : Type} (f : DB -> A) : M A := fun db => (Ok (f db), db).

Definition execute (f : DB -> DB) : M unit := fun db => (Ok tt, f db).

Definition model_eqb (a b : Model) : bool :=
  match a, b with
  | ArticleModel, ArticleModel => true
  | LikeDislikeModel, LikeDislikeModel => true
  | RatingModel, RatingModel => true
  | _, _ => false
  end.

(** [isinstance(e, m.DoesNotExist)] *)
Definition is_DoesNotExist (m : Model) (e : Exn) : bool :=
  match e with
  | DoesNotExist m' => model_eqb m m'
  | _ => false
  end.

(** [try: body  except m.DoesNotExist: handler] *)
Definition try_except {A : Type} (body : M A) (m : Model) (handler : M A)
  : M A :=
  fun db =>
    match body db with
    | (Ok a, db') => (Ok a, db')
    | (Raise e, db') =>
        if is_DoesNotExist m e then handler db' else (Raise e, db')
    end.

Declare Scope view_scope.
Delimit Scope view_scope with view.
Notation "x <- c ;; k" := (bind c (fun x => k))
  (at level 61, c at next level, right associativity) : view_scope.
Notation "c ;;; k" := (bind c (fun _ => k))
  (at level 61, right associativity) : view_scope.
Local Open Scope view_scope.

(** ** The object-relational mapper *)

(** [QuerySet.get]: the one row of the query set, [DoesNotExist] when it is
    empty, [MultipleObjectsReturned] when it has more rows. *)
Definition queryset_get {R : Type} (m : Model) (qs : list R) : Result R :=
  match qs with
  | [] => Raise (DoesNotExist m)
  | [r] => Ok r
  | _ :: _ :: _ => Raise (MultipleObjectsReturned m)
  end.

(** [django.shortcuts.get_object_or_404] *)
Definition get_object_or_404 {R : Type} (m : Model) (qs : list R)
  : Result R :=
  match queryset_get m qs with
  | Raise (DoesNotExist _) => Raise Http404
  | r => r
  end.

Definition vote_eqb (a b : Vote) : bool :=
  match a, b with
  | LIKE, LIKE => true
  | DISLIKE, DISLIKE => true
  | _, _ => false
  end.

(** [a is not b] on vote values: the two constants are distinct objects, and
    a stored vote is one of them. *)
Definition vote_is_not (a b : Vote) : bool := negb (vote_eqb a b).

Definition content_type_eqb (a b : ContentType) : bool :=
  match a, b with
  | ArticleType, ArticleType => true
  | CommentType, CommentType => true
  | _, _ => false
  end.

(** [Article.objects.filter(slug=s)] *)
Definition articles_by_slug (s : string) (db : DB) : list Article :=
  filter (fun a => String.eqb (slug a) s) (articles db).

(** [Article.objects.get(slug=s)] *)
Definition Article_objects_get (s : string) : M Article :=
  fun db => (queryset_get ArticleModel (articles_by_slug s db), db).

(** The rows of one user on one target: the filter of
    [LikeDislike.objects.get(content_type=.., object_id=.., user=..)]. *)
Definition same_target (ct : ContentType) (oid u : nat) (r : LikeDislike)
  : bool :=
  content_type_eqb (content_type r) ct
  && (object_id r =? oid) && (user r =? u).

(** [LikeDislike.objects.get(content_type=ct, object_id=oid, user=u)];
    [AnonymousUser] is no value of the user key, and the query raises
    [TypeError] before it reads the table. *)
Definition LikeDislike_objects_get (ct : ContentType) (oid : nat)
  (u : RequestUser) : M LikeDislike :=
  match u with
  | AnonymousUser => raise TypeError
  | AuthenticatedUser uid =>
      fun db =>
        (queryset_get LikeDislikeModel
           (filter (same_target ct oid uid) (likedislikes db)), db)
  end.

Definition set_vote (v : Vote) (r : LikeDislike) : LikeDislike :=
  mkLikeDislike (likedislike_pk r) (content_type r) (object_id r) (user r) v.

(** [likedislike.save(update_fields=['vote'])]: the vote column of the row
    with the primary key of [l] becomes the vote of [l]. *)
Definition LikeDislike_save_vote (l : LikeDislike) : M unit :=
  execute (fun db =>
    set_likedislikes
      (map (fun r => if likedislike_pk r =? likedislike_pk l
                     then set_vote (vote l) r else r)
           (likedislikes db)) db).

(** [likedislike.delete()]: the row with the primary key of [l] goes. *)
Definition LikeDislike_delete (l : LikeDislike) : M unit :=
  execute (fun db =>
    set_likedislikes
      (filter (fun r => negb (likedislike_pk r =? likedislike_pk l))
              (likedislikes db)) db).

(** The primary key of a new row: above every key of the table. *)
Definition next_pk {R : Type} (pk : R -> nat) (rows : list R) : nat :=
  S (list_max (map pk rows)).

(** [obj.votes.create(user=u, vote=v)]: a new row of the generic relation
    [votes] of the article [obj]; [AnonymousUser] cannot be assigned to the
    user of a row. *)
Definition votes_create (obj : Article) (u : RequestUser) (v : Vote)
  : M unit :=
  match u with
  | AnonymousUser => raise ValueError
  | AuthenticatedUser uid =>
      execute (fun db =>
        set_likedislikes
          (likedislikes db ++
             [mkLikeDislike (next_pk likedislike_pk (likedislikes db))
                ArticleType (article_pk obj) uid v]) db)
  end.

(** [instance.votes]: the rows of the generic relation of one target. *)
Definition votes (ct : ContentType) (oid : nat) (db : DB) : list LikeDislike :=
  filter (fun r => content_type_eqb (content_type r) ct
                   && (object_id r =? oid)) (likedislikes db).

(** Modelled from the spec: [LikeDislikeManager.likes] and [dislikes] are in
    [models.py], which is not among the sources; section 4.1's count query
    counts the rows that match the target and the vote value. *)
Definition likes (qs : list LikeDislike) : list LikeDislike :=
  filter (fun r => vote_eqb (vote r) LIKE) qs.

Definition dislikes (qs : list LikeDislike) : list LikeDislike :=
  filter (fun r => vote_eqb (vote r) DISLIKE) qs.

(** ** serializers.py: ArticleSerializer *)

(** [ArticleSerializer.get_likes]: [instance.votes.likes().count()] *)
Definition get_likes (instance : Article) : M nat :=
  query (fun db => List.length (likes (votes ArticleType (article_pk instance) db))).

(** [ArticleSerializer.get_dislikes] *)
Definition get_dislikes (instance : Article) : M nat :=
  query (fun db =>
    List.length (dislikes (votes ArticleType (article_pk instance) db))).

(** The fields of [ArticleSerializer.data] that the views below change. *)
Record ArticleData : Type := mkArticleData {
  data_slug : string;
  data_favorited : bool;
  data_favorites_count : Z;
  data_likes : nat;
  data_dislikes : nat
}.

Inductive Body : Type :=
| ArticleBody (d : ArticleData)
| MessageBody (message : string).

Record Response : Type := mkResponse {
  data : Body;
  status : nat
}.

Definition HTTP_201_CREATED : nat := 201.
Definition HTTP_204_NO_CONTENT : nat := 204.
Definition HTTP_400_BAD_REQUEST : nat := 400.

(** [ArticleSerializer(obj).data]: the two counts are read from the
    database when the data is asked for; the other fields are those of the
    instance. *)
Definition ArticleSerializer_data (obj : Article) : M Body :=
  l <- get_likes obj ;;
  d <- get_dislikes obj ;;
  ret (ArticleBody
         (mkArticleData (slug obj) (favorited obj) (favorites_count obj) l d)).

(** ** views.py: ChoiceView *)

Record Request : Type := mkRequest {
  request_user : RequestUser
}.

(** [urls.py] makes the view with [model=Article] and a [vote_type]; the
    model is fixed to [Article] here. *)
Record ChoiceView : Type := mkChoiceView {
  vote_type : Vote
}.

(** [path('articles/<str:slug>/like/', ...)] *)
Definition article_like : ChoiceView := mkChoiceView LIKE.

(** [path('articles/<str:slug>/dislike/', ...)] *)
Definition article_dislike : ChoiceView := mkChoiceView DISLIKE.

(** [ChoiceView.post] *)
Definition post (self : ChoiceView) (request : Request) (slug_ : string)
  : M Response :=
  obj <- Article_objects_get slug_ ;;
  try_except
    (likedislike <-
       LikeDislike_objects_get ArticleType (article_pk obj)
         (request_user request) ;;
     if vote_is_not (vote likedislike) (vote_type self)
     then LikeDislike_save_vote (set_vote (vote_type self) likedislike)
     else LikeDislike_delete likedislike)
    LikeDislikeModel
    (votes_create obj (request_user request) (vote_type self)) ;;;
  body <- ArticleSerializer_data obj ;;
  ret (mkResponse body HTTP_201_CREATED).

(** ** The permission gate of the framework *)

Inductive Permission : Type := AllowAny | IsAuthenticated.

(** [permission.has_permission(request, view)] *)
Definition has_permission (request : Request) (p : Permission) : bool :=
  match p, request_user request with
  | AllowAny, _ => true
  | IsAuthenticated, AuthenticatedUser _ => true
  | IsAuthenticated, AnonymousUser => false
  end.

(** [APIView.check_permissions]: every permission class must grant. *)
Definition check_permissions (permission_classes : list Permission)
  (request : Request) : M unit :=
  if forallb (has_permission request) permission_classes
  then ret tt
  else raise NotAuthenticated.

(** [APIView.dispatch]: the permission check, then the handler. *)
Definition dispatch {A : Type} (permission_classes : list Permission)
  (request : Request) (handler : M A) : M A :=
  check_permissions permission_classes request ;;; handler.

(** Modelled from the spec: [settings.py] (the REST framework defaults) is
    not among the sources; section 4.1 has a submission fail with
    Unauthorized if no authenticated user, so the default permission classes
    ask for an authenticated user. *)
Definition DEFAULT_PERMISSION_CLASSES : list Permission := [IsAuthenticated].

(** [ChoiceView] sets no [permission_classes]: the defaults of the project
    apply to it. *)
Definition ChoiceView_dispatch (defaults : list Permission)
  (self : ChoiceView) (request : Request) (slug_ : string) : M Response :=
  dispatch defaults request (post self request slug_).

(** ** views.py: FavoriteArticle and UnFavoriteArticle *)

Record Profile : Type := mkProfile {
  profile_user_id : nat
}.

(** [request.user.profile]; [AnonymousUser] has no such attribute. *)
Definition user_profile (u : RequestUser) : M Profile :=
  match u with
  | AnonymousUser => raise AttributeError
  | AuthenticatedUser uid => ret (mkProfile uid)
  end.

Definition favorite_eqb (p q : nat * nat) : bool :=
  (fst p =? fst q) && (snd p =? snd q).

(** Modelled from the spec: [Profile.has_favorited], [Profile.favorite] and
    [Profile.unfavorite] are in [profiles/models.py], which is not among the
    sources; section 3 has a Favorite relation between users and content
    items, which the three test, extend by one pair and reduce by one
    pair. *)
Definition has_favorited (profile : Profile) (article : Article) : M bool :=
  query (fun db =>
    existsb (favorite_eqb (profile_user_id profile, article_pk article))
            (favorites db)).

Definition favorite (profile : Profile) (article : Article) : M unit :=
  execute (fun db =>
    if existsb (favorite_eqb (profile_user_id profile, article_pk article))
               (favorites db)
    then db
    else set_favorites
           (favorites db ++ [(profile_user_id profile, article_pk article)])
           db).

Definition unfavorite (profile : Profile) (article : Article) : M unit :=
  execute (fun db =>
    set_favorites
      (filter (fun p => negb (favorite_eqb
                                (profile_user_id profile, article_pk article)
                                p))
              (favorites db)) db).

(** [article.save()]: the row with the primary key of [article] takes the
    fields of [article]. *)
Definition Article_save (article : Article) : M unit :=
  execute (fun db =>
    set_articles
      (map (fun a => if article_pk a =? article_pk article
                     then article else a) (articles db)) db).

(** [get_object] of both views:
    [get_object_or_404(self.get_queryset(), slug=self.kwargs.get('slug'))] *)
Definition get_object (slug_ : string) : M Article :=
  fun db => (get_object_or_404 ArticleModel (articles_by_slug slug_ db), db).

Definition set_favorited (b : bool) (a : Article) : Article :=
  mkArticle (article_pk a) (slug a) (author_id a) b (favorites_count a).

Definition set_favorites_count (n : Z) (a : Article) : Article :=
  mkArticle (article_pk a) (slug a) (author_id a) (favorited a) n.

(** [FavoriteArticle.create] *)
Definition FavoriteArticle_create (request : Request) (slug_ : string)
  : M Response :=
  profile <- user_profile (request_user request) ;;
  article <- get_object slug_ ;;
  if author_id article =? profile_user_id profile
  then ret (mkResponse (MessageBody "can not favorite own article")
                       HTTP_400_BAD_REQUEST)
  else
    again <- has_favorited profile article ;;
    if again : bool
    then ret (mkResponse (MessageBody "article can not be favorited again")
                         HTTP_400_BAD_REQUEST)
    else
      favorite profile article ;;;
      let article := set_favorited true article in
      let article :=
        set_favorites_count (favorites_count article + 1) article in
      Article_save article ;;;
      body <- ArticleSerializer_data article ;;
      ret (mkResponse body HTTP_201_CREATED).

(** [UnFavoriteArticle.destroy] *)
Definition UnFavoriteArticle_destroy (request : Request) (slug_ : string)
  : M Response :=
  profile <- user_profile (request_user request) ;;
  article <- get_object slug_ ;;
  found <- has_favorited profile article ;;
  if negb found
  then ret (mkResponse
              (MessageBody "This article is not in your favorite list")
              HTTP_400_BAD_REQUEST)
  else
    unfavorite profile article ;;;
    let article :=
      if (favorites_count article >? 0)%Z
      then
        let article :=
          set_favorites_count (favorites_count article - 1) article in
        if (favorites_count article =? 0)%Z
        then set_favorited false article
        else article
      else article in
    Article_save article ;;;
    body <- ArticleSerializer_data article ;;
    ret (mkResponse body HTTP_204_NO_CONTENT).

(** Both views set [permission_classes = (IsAuthenticated,)]. *)
Definition FavoriteArticle_dispatch (request : Request) (slug_ : string)
  : M Response :=
  dispatch [IsAuthenticated] request (FavoriteArticle_create request slug_).

Definition UnFavoriteArticle_dispatch (request : Request) (slug_ : string)
  : M Response :=
  dispatch [IsAuthenticated] request (UnFavoriteArticle_destroy request slug_).

(** ** serializers.py: RatingSerializer *)

(** [validated_data]: the author (a user's key), the article (the instance
    that the primary-key field looked up) and the score. *)
Record RatingData : Type := mkRatingData {
  vd_author : nat;
  vd_article : Article;
  vd_score : Z
}.

(** The filter [author=author, article__slug=s]: the rating's article is
    joined on its key and tested on its slug. *)
Definition rating_matches (author : nat) (s : string) (db : DB) (r : Rating)
  : bool :=
  (rating_author r =? author)
  && existsb (fun a => (article_pk a =? rating_article r)
                       && String.eqb (slug a) s)
             (articles db).

(** [Rating.objects.get(author=author, article__slug=s)] *)
Definition Rating_objects_get (author : nat) (s : string) : M Rating :=
  fun db =>
    (queryset_get RatingModel
       (filter (rating_matches author s db) (ratings db)), db).

(** [Rating.objects.create] with the fields of [validated_data] *)
Definition Rating_objects_create (validated_data : RatingData) : M Rating :=
  fun db =>
    let rating :=
      mkRating (next_pk rating_pk (ratings db)) (vd_author validated_data)
               (article_pk (vd_article validated_data))
               (vd_score validated_data) in
    (Ok rating, set_ratings (ratings db ++ [rating]) db).

(** [rating.save()] *)
Definition Rating_save (rating : Rating) : M unit :=
  execute (fun db =>
    set_ratings
      (map (fun r => if rating_pk r =? rating_pk rating then rating else r)
           (ratings db)) db).

Definition set_score (s : Z) (r : Rating) : Rating :=
  mkRating (rating_pk r) (rating_author r) (rating_article r) s.

(** [RatingSerializer.create]: the [except] branch returns from the
    method, the rest runs when the lookup found the rating. *)
Definition RatingSerializer_create (validated_data : RatingData) : M Rating :=
  let author := vd_author validated_data in
  let article := vd_article validated_data in
  let score_ := vd_score validated_data in
  found <- try_except
             (rating <- Rating_objects_get author (slug article) ;;
              ret (inl rating))
             RatingModel
             (created <- Rating_objects_create validated_data ;;
              ret (inr created)) ;;
  match found with
  | inr created => ret created
  | inl rating =>
      let rating := set_score score_ rating in
      Rating_save rating ;;;
      ret rating
  end.

(** ** Sequences of calls and the properties of the tables *)

(** A vote submission: the endpoint, the caller and the slug. *)
Record Submission : Type := mkSubmission {
  sub_view : ChoiceView;
  sub_request : Request;
  sub_slug : string
}.

Definition submit (s : Submission) (db : DB) : DB :=
  snd (post (sub_view s) (sub_request s) (sub_slug s) db).

Definition submit_all (ss : list Submission) (db : DB) : DB :=
  fold_left (fun d s => submit s d) ss db.

(** The states of the reaction ledger: an empty ledger, and what vote
    submissions make of it. *)
Inductive reachable : DB -> Prop :=
| reachable_empty : forall db, likedislikes db = [] -> reachable db
| reachable_submit : forall db s, reachable db -> reachable (submit s db).

(** At most one row per (target type, target identifier, user). *)
Definition ledger_unique (rows : list LikeDislike) : Prop :=
  forall ct oid u, List.length (filter (same_target ct oid u) rows) <= 1.

(** A call of one of the two favorite views, through the permission gate. *)
Inductive FavoriteCall : Type :=
| Favor (request : Request) (slug_ : string)
| Unfavor (request : Request) (slug_ : string).

Definition favorite_call (c : FavoriteCall) : M Response :=
  match c with
  | Favor request slug_ => FavoriteArticle_dispatch request slug_
  | Unfavor request slug_ => UnFavoriteArticle_dispatch request slug_
  end.

Definition favorite_calls (cs : list FavoriteCall) (db : DB) : DB :=
  fold_left (fun d c => snd (favorite_call c d)) cs db.

(** The users who have favorited the article with key [a]. *)
Definition favorited_by (a : nat) (db : DB) : list nat :=
  nodup Nat.eq_dec
    (map fst (filter (fun p => snd p =? a) (favorites db))).

(** The counter of the article with key [pk] is the number of users who
    have favorited it. *)
Definition favorites_consistent (pk : nat) (db : DB) : Prop :=
  forall a, In a (articles db) -> article_pk a = pk ->
    favorites_count a = Z.of_nat (List.length (favorited_by pk db)).

(** The ratings of one author on one article. *)
Definition ratings_of (author article : nat) (rows : list Rating)
  : list Rating :=
  filter (fun r => (rating_author r =? author)
                   && (rating_article r =? article)) rows.

Definition ratings_unique (rows : list Rating) : Prop :=
  forall author article, List.length (ratings_of author article rows) <= 1.

Definition rate_all (vds : list RatingData) (db : DB) : DB :=
  fold_left (fun d vd => snd (RatingSerializer_create vd d)) vds db.

(** [ArticleSerializer(obj).data] read on the state [db], under a status. *)
Definition article_response (obj : Article) (db : DB) (st : nat) : Response :=
  mkResponse
    (ArticleBody
       (mkArticleData (slug obj) (favorited obj) (favorites_count obj)
          (List.length (likes (votes ArticleType (article_pk obj) db)))
          (List.length (dislikes (votes ArticleType (article_pk obj) db)))))
    st.

(** The row that a first vote of [u] on the article [obj] adds. *)
Definition new_vote (obj : Article) (u : nat) (v : Vote) (db : DB)
  : LikeDislike :=
  mkLikeDislike (next_pk likedislike_pk (likedislikes db)) ArticleType
                (article_pk obj) u v.

(** ** Sample states

    The article of [tests/test_base.py], written by user 10; users 11 and
    12 are readers. *)

Definition believer : Article := mkArticle 1 "believer" 10 false 0.

Definition db_fresh : DB := mkDB [10; 11; 12] [believer] [] [] [] [].

(** User 11 likes the article. *)
Definition db_liked : DB :=
  mkDB [10; 11; 12] [believer] []
       [mkLikeDislike 1 ArticleType 1 11 LIKE] [] [].

Definition request_of (u : nat) : Request := mkRequest (AuthenticatedUser u).

(** User 11 has rated the article with 4.00. *)
Definition db_rated : DB :=
  mkDB [10; 11; 12] [believer] [] [] [] [mkRating 1 11 1 400].

(** ** The caller's vote and the counters of an article *)

(** The vote that user [u] has on the article with key [oid], if the
    ledger holds exactly one row of the user on it. *)
Definition caller_vote (u oid : nat) (db : DB) : option Vote :=
  match filter (same_target ArticleType oid u) (likedislikes db) with
  | [r] => Some (vote r)
  | _ => None
  end.

(** What a submission of [v] makes of the caller's vote. *)
Definition toggle (v : Vote) (st : option Vote) : option Vote :=
  match st with
  | None => Some v
  | Some w => if vote_is_not w v then Some v else None
  end.

(** The submissions of the votes [vs], in this order, by user [u] on the
    article with slug [s]. *)
Definition submissions (u : nat) (s : string) (vs : list Vote)
  : list Submission :=
  map (fun v => mkSubmission (mkChoiceView v) (request_of u) s) vs.

(** The counter of an article is not negative, and the flag [favorited]
    tells whether it is positive. *)
Definition counter_sound (a : Article) : Prop :=
  (0 <= favorites_count a)%Z /\
  (favorited a = true <-> (0 < favorites_count a)%Z).

(** No user has favorited an article that the user wrote. *)
Definition no_own_favorite (db : DB) : Prop :=
  forall u a, In (u, article_pk a) (favorites db) -> In a (articles db) ->
              author_id a <> u.

(** ** serializers.py: RatingSerializer.update_data *)

(** The keys of the request's dictionary that [update_data] reads or
    writes; the score is a number of the request, taken as a rational. *)
Record RatingRequest : Type := mkRatingRequest {
  rq_score : option QArith_base.Q;
  rq_article : option nat;
  rq_author : option nat
}.

(** What a serializer raises: a validation error with its message, the
    [KeyError] of a dictionary, the [MultipleObjectsReturned] of the tags, or
    another exception of the mapper that nothing caught. *)
Inductive ApiExn : Type :=
| ValidationError (detail : string)
| KeyError (key : string)
| MultipleTagsReturned
| Uncaught (e : Exn).

Inductive Checked (A : Type) : Type :=
| Valid (a : A)
| Invalid (e : ApiExn).

Arguments Valid {A} a.
Arguments Invalid {A} e.

(** [a > b] and [a < b] on numbers of the request. *)
Definition number_gt (a b : QArith_base.Q) : bool :=
  negb (QArith_base.Qle_bool a b).

Definition number_lt (a b : QArith_base.Q) : bool :=
  negb (QArith_base.Qle_bool b a).

Definition number_of (z : Z) : QArith_base.Q := QArith_base.inject_Z z.

(** [RatingSerializer.update_data]; it reads the database and writes
    nothing.  [user] is a row of the user table, given by its key: the view
    of the ratings admits authenticated callers only. *)
Definition update_data (data : RatingRequest) (slug_ : string) (user_ : nat)
  (db : DB) : Checked RatingRequest :=
  match queryset_get ArticleModel (articles_by_slug slug_ db) with
  | Raise e =>
      if is_DoesNotExist ArticleModel e
      then Invalid (ValidationError "Article is not found.")
      else Invalid (Uncaught e)
  | Ok article =>
      if author_id article =? user_
      then Invalid (ValidationError
                      "Please rate an article that does not belong to you")
      else
        let score_ :=
          match rq_score data with
          | Some q => q
          | None => number_of 0
          end in
        if number_gt score_ (number_of 5) || number_lt score_ (number_of 0)
        then Invalid (ValidationError
               "Score value must not go below `0` and not go beyond `5`")
        else
          let data := mkRatingRequest (rq_score data)
                        (Some (article_pk article)) (rq_author data) in
          let data := mkRatingRequest (rq_score data) (rq_article data)
                        (Some user_) in
          Valid data
  end.

(** ** views.py: ListCreateComment.list *)

(** [{"Comment": ...}] for one comment, [{"Comments": ..., "commentsCount":
    n}] for more. *)
Inductive CommentsBody : Type :=
| CommentBody (serialized : list Comment)
| CommentsBody_ (serialized : list Comment) (commentsCount : nat).

Record CommentsResponse : Type := mkCommentsResponse {
  comments_data : CommentsBody;
  comments_status : nat
}.

Definition HTTP_200_OK : nat := 200.
Definition HTTP_404_NOT_FOUND : nat := 404.

(** [Comment.objects.filter(article_id=slug)]: the key of a comment to its
    article is the slug of the article. *)
Definition comments_of (slug_ : string) (db : DB) : list Comment :=
  filter (fun c => String.eqb (comment_article c) slug_) (comments db).

(** [ListCreateComment.list]; it reads the database and writes nothing. *)
Definition ListCreateComment_list (slug_ : string) (db : DB)
  : Checked CommentsResponse :=
  let queryset := comments_of slug_ db in
  if List.length queryset =? 0
  then Invalid (ValidationError "No comments found")
  else if List.length queryset =? 1
  then Valid (mkCommentsResponse (CommentBody queryset) HTTP_200_OK)
  else Valid (mkCommentsResponse
                (CommentsBody_ queryset (List.length queryset)) HTTP_200_OK).

(** ** views.py: the bookmark views *)

(** A bookmark: its key, the key of its user and the slug of its article
    (the key of a bookmark to its article is the slug). *)
Record Bookmark : Type := mkBookmark {
  bookmark_pk : nat;
  bookmark_user : nat;
  bookmark_slug : string
}.

Record Tag : Type := mkTag {
  tag_pk : nat;
  tag : string
}.

(** The database with the tables of the bookmarks, of the tags and of the
    many-to-many relation of articles to tags: pairs (article, tag). *)
Record Site : Type := mkSite {
  site_db : DB;
  bookmarks : list Bookmark;
  tags : list Tag;
  article_tags : list (nat * nat)
}.

Definition set_site_db (db : DB) (st : Site) : Site :=
  mkSite db (bookmarks st) (tags st) (article_tags st).

Definition set_bookmarks (rows : list Bookmark) (st : Site) : Site :=
  mkSite (site_db st) rows (tags st) (article_tags st).

Definition set_tags (rows : list Tag) (st : Site) : Site :=
  mkSite (site_db st) (bookmarks st) rows (article_tags st).

Definition set_article_tags (rows : list (nat * nat)) (st : Site) : Site :=
  mkSite (site_db st) (bookmarks st) (tags st) rows.

Inductive BookmarkBody : Type :=
| BookmarkData (slug_ : string)
| BookmarkList (slugs : list string)
| BookmarkMessage (message : string).

Record BookmarkResponse : Type := mkBookmarkResponse {
  bookmark_data : BookmarkBody;
  bookmark_status : nat
}.

(** [Bookmark.objects.filter(slug_id=s, user_id=u)] *)
Definition bookmarks_of (u : nat) (s : string) (st : Site) : list Bookmark :=
  filter (fun b => String.eqb (bookmark_slug b) s && (bookmark_user b =? u))
         (bookmarks st).

(** The filter of [bookmarks_of], by name. *)
Definition bookmark_key (u : nat) (s : string) (b : Bookmark) : bool :=
  String.eqb (bookmark_slug b) s && (bookmark_user b =? u).

(** [BookmarkView.create] for the authenticated user [u]; the serializer
    has read-only fields only and is valid on any data. *)
Definition BookmarkView_create (u : nat) (slug_ : string) (st : Site)
  : Result BookmarkResponse * Site :=
  match get_object_or_404 ArticleModel (articles_by_slug slug_ (site_db st))
  with
  | Raise e => (Raise e, st)
  | Ok article =>
      match bookmarks_of u (slug article) st with
      | _ :: _ =>
          (Ok (mkBookmarkResponse
                 (BookmarkMessage "article already bookmarked")
                 HTTP_400_BAD_REQUEST), st)
      | [] =>
          (Ok (mkBookmarkResponse (BookmarkData (slug article))
                                  HTTP_201_CREATED),
           set_bookmarks
             (bookmarks st ++
                [mkBookmark (next_pk bookmark_pk (bookmarks st)) u
                            (slug article)]) st)
      end
  end.

(** [UnBookmarkView.destroy] for the authenticated user [u]: the query set
    of the caller's bookmarks of the slug is deleted as a whole. *)
Definition UnBookmarkView_destroy (u : nat) (slug_ : string) (st : Site)
  : Result BookmarkResponse * Site :=
  match bookmarks_of u slug_ st with
  | [] =>
      (Ok (mkBookmarkResponse (BookmarkMessage "bookmark not found")
                              HTTP_404_NOT_FOUND), st)
  | _ :: _ =>
      (Ok (mkBookmarkResponse (BookmarkMessage "deleted")
                              HTTP_204_NO_CONTENT),
       set_bookmarks
         (filter (fun b => negb (String.eqb (bookmark_slug b) slug_
                                 && (bookmark_user b =? u)))
                 (bookmarks st)) st)
  end.

(** [ListBookmarksView.get] for the authenticated user [u]:
    [self.queryset.filter(user_id=request.user)], serialized. *)
Definition ListBookmarksView_get (u : nat) (st : Site)
  : Result BookmarkResponse * Site :=
  (Ok (mkBookmarkResponse
         (BookmarkList
            (map bookmark_slug
                 (filter (fun b => bookmark_user b =? u) (bookmarks st))))
         HTTP_200_OK), st).

(** The three views set [permission_classes = (IsAuthenticated,)]. *)
Definition authenticated {A : Type} (request : Request)
  (handler : nat -> Site -> Result A * Site) (st : Site)
  : Result A * Site :=
  match request_user request with
  | AnonymousUser => (Raise NotAuthenticated, st)
  | AuthenticatedUser u => handler u st
  end.

(** A call of one of the two views that write bookmarks. *)
Inductive BookmarkCall : Type :=
| DoBookmark (request : Request) (slug_ : string)
| UnBookmark (request : Request) (slug_ : string).

Definition bookmark_call (c : BookmarkCall) (st : Site) : Site :=
  match c with
  | DoBookmark request slug_ =>
      snd (authenticated request (fun u => BookmarkView_create u slug_) st)
  | UnBookmark request slug_ =>
      snd (authenticated request (fun u => UnBookmarkView_destroy u slug_) st)
  end.

Definition bookmark_calls (cs : list BookmarkCall) (st : Site) : Site :=
  fold_left (fun s c => bookmark_call c s) cs st.

(** At most one bookmark per (user, article). *)
Definition bookmarks_unique (st : Site) : Prop :=
  forall u s, List.length (bookmarks_of u s st) <= 1.

Definition site_fresh : Site := mkSite db_fresh [] [] [].

(** ** serializers.py: tags *)

(** [Tag.objects.filter(tag=name)] *)
Definition tags_named (name : string) (st : Site) : list Tag :=
  filter (fun t => String.eqb (tag t) name) (tags st).

(** [TagsRelationSerializer.to_internal_value]:
    [Tag.objects.get_or_create(tag=data)], of which the tag is returned. *)
Definition to_internal_value (data_ : string) (st : Site)
  : Checked Tag * Site :=
  match tags_named data_ st with
  | [] =>
      let t := mkTag (next_pk tag_pk (tags st)) data_ in
      (Valid t, set_tags (tags st ++ [t]) st)
  | [t] => (Valid t, st)
  | _ :: _ :: _ => (Invalid MultipleTagsReturned, st)
  end.

(** [TagsRelationSerializer.to_representation] *)
Definition to_representation (value : Tag) : string := tag value.

Definition link_eqb (p q : nat * nat) : bool :=
  (fst p =? fst q) && (snd p =? snd q).

(** [article.tags.add(t)]: the pair joins the relation unless it is in. *)
Definition tags_add (article : Article) (t : nat) (st : Site) : Site :=
  if existsb (link_eqb (article_pk article, t)) (article_tags st)
  then st
  else set_article_tags (article_tags st ++ [(article_pk article, t)]) st.

(** The body of the loop of [ArticleSerializer.create], for one name. *)
Definition add_tag (article : Article) (st : Site) (name : string) : Site :=
  match tags_named name st with
  | [] =>
      (* article.tags.create(tag=name) *)
      let t := mkTag (next_pk tag_pk (tags st)) name in
      set_article_tags
        (article_tags st ++ [(article_pk article, tag_pk t)])
        (set_tags (tags st ++ [t]) st)
  | t :: _ =>
      (* article.tags.add(query_tag[0].id) *)
      tags_add article (tag_pk t) st
  end.

Section ArticleCreation.

(** [models.py] is not among the sources: the data that the serializer has
    validated, and the row that the model makes of a key, an author and
    that data in a database (its slug, its defaults), are parameters. *)
Variable ArticleFields : Type.
Variable new_article : nat -> nat -> ArticleFields -> DB -> Article.

(** [Article.objects.create(author=author, ...)] with the validated
    data. *)
Definition Article_objects_create (author : nat)
  (validated_data : ArticleFields) (st : Site) : Article * Site :=
  let db := site_db st in
  let article :=
    new_article (next_pk article_pk (articles db)) author validated_data db in
  (article, set_site_db (set_articles (articles db ++ [article]) db) st).

(** [ArticleSerializer.create] for the authenticated user [author];
    [initial_tags] is [self.initial_data['tags']], [None] when the request
    has no such key.  [validated_tags] is the entry [tags] of the validated
    data, there when the request carries [tagList] (the field of source
    [tags]); [validated_data] are the other entries.  The model takes no
    value for the many-to-many relation: with that entry,
    [Article.objects.create] raises [TypeError] and writes no article. *)
Definition ArticleSerializer_create (author : nat)
  (initial_tags : option (list string)) (validated_tags : option (list Tag))
  (validated_data : ArticleFields) (st : Site) : Checked Article * Site :=
  match initial_tags with
  | None => (Invalid (KeyError "tags"), st)
  | Some tags_ =>
      match validated_tags with
      | Some _ => (Invalid (Uncaught TypeError), st)
      | None =>
          let (article, st1) :=
            Article_objects_create author validated_data st in
          (Valid article, fold_left (add_tag article) tags_ st1)
      end
  end.

End ArticleCreation.

(** The article with key [a] carries a tag with the name [name]. *)
Definition tagged (a : nat) (name : string) (st : Site) : Prop :=
  exists t, In t (tags st) /\ tag t = name /\ In (a, tag_pk t) (article_tags st).

(** The slugs that [ListBookmarksView.get] lists for user [u]. *)
Definition listed_slugs (u : nat) (st : Site) : list string :=
  match fst (ListBookmarksView_get u st) with
  | Ok (mkBookmarkResponse (BookmarkList slugs) _) => slugs
  | _ => []
  end.

(** * Properties *)

(** ** Lists and keys *)

Lemma vote_eqb_eq (a b : Vote) : vote_eqb a b = true <-> a = b.
Proof. destruct a, b; simpl; split; congruence. Qed.

Lemma vote_is_not_true (a b : Vote) : vote_is_not a b = true <-> a <> b.
Proof. destruct a, b; unfold vote_is_not; simpl; split; congruence. Qed.

Lemma vote_is_not_false (a b : Vote) : vote_is_not a b = false <-> a = b.
Proof. destruct a, b; unfold vote_is_not; simpl; split; congruence. Qed.

Lemma content_type_eqb_eq (a b : ContentType) :
  content_type_eqb a b = true <-> a = b.
Proof. destruct a, b; simpl; split; congruence. Qed.

Lemma same_target_true ct oid u r :
  same_target ct oid u r = true <->
  content_type r = ct /\ object_id r = oid /\ user r = u.
Proof.
  unfold same_target.
  rewrite !andb_true_iff, content_type_eqb_eq, !Nat.eqb_eq. tauto.
Qed.

Lemma same_target_set_vote ct oid u v r :
  same_target ct oid u (set_vote v r) = same_target ct oid u r.
Proof. reflexivity. Qed.

Lemma next_pk_above {R : Type} (pk : R -> nat) (rows : list R) (r : R) :
  In r rows -> pk r < next_pk pk rows.
Proof.
  unfold next_pk. induction rows as [|x rows IH]; simpl; [tauto|].
  intros [->|H]; [lia|]. specialize (IH H). lia.
Qed.

Lemma filter_all {A : Type} (f : A -> bool) (l : list A) :
  (forall x, In x l -> f x = true) -> filter f l = l.
Proof.
  induction l as [|a l IH]; simpl; intros H; [reflexivity|].
  rewrite (H a (or_introl eq_refl)). f_equal. apply IH. auto.
Qed.

Lemma filter_none {A : Type} (f : A -> bool) (l : list A) :
  (forall x, In x l -> f x = false) -> filter f l = [].
Proof.
  induction l as [|a l IH]; simpl; intros H; [reflexivity|].
  rewrite (H a (or_introl eq_refl)). apply IH. auto.
Qed.

Lemma filter_nil_none {A : Type} (f : A -> bool) (l : list A) (x : A) :
  filter f l = [] -> In x l -> f x = false.
Proof.
  intros E H. destruct (f x) eqn:F; [|reflexivity].
  assert (In x (filter f l)) as I by (apply filter_In; auto).
  rewrite E in I. destruct I.
Qed.

Lemma filter_map_key {A : Type} (f : A -> bool) (g : A -> A) (l : list A) :
  (forall x, f (g x) = f x) -> filter f (map g l) = map g (filter f l).
Proof.
  intros H. induction l as [|a l IH]; simpl; [reflexivity|].
  rewrite H. destruct (f a); simpl; rewrite IH; reflexivity.
Qed.

Lemma filter_filter_length {A : Type} (f g : A -> bool) (l : list A) :
  List.length (filter f (filter g l)) <= List.length (filter f l).
Proof.
  induction l as [|a l IH]; simpl; [lia|].
  destruct (g a), (f a) eqn:F; simpl; rewrite ?F; simpl; lia.
Qed.

(** A key that one row of the table carries, and no second row, selects
    exactly that row. *)
Lemma filter_singleton {A : Type} (f : A -> bool) (l : list A) (x : A) :
  In x l -> f x = true -> List.length (filter f l) <= 1 -> filter f l = [x].
Proof.
  intros I F L.
  assert (In x (filter f l)) as I' by (apply filter_In; auto).
  destruct (filter f l) as [|y [|z t]]; simpl in *; try lia; try tauto.
  destruct I' as [->|[]]. reflexivity.
Qed.

(** Rows are told apart by their primary keys: writing the row with the key
    of [x] changes that one place of the table. *)
Lemma map_by_pk_split {A : Type} (pk : A -> nat) (g : A -> A) (l : list A)
  (x : A) :
  NoDup (map pk l) -> In x l ->
  exists l1 l2,
    l = l1 ++ x :: l2 /\
    map (fun r => if pk r =? pk x then g r else r) l = l1 ++ g x :: l2.
Proof.
  induction l as [|a l IH]; simpl; intros N I; [tauto|].
  inversion N as [|? ? Na Nl]; subst.
  destruct I as [->|I].
  - exists [], l. split; [reflexivity|]. simpl. rewrite Nat.eqb_refl.
    f_equal. rewrite <- (map_id l) at 2. apply map_ext_in. intros r Hr.
    destruct (pk r =? pk x) eqn:E; [|reflexivity].
    apply Nat.eqb_eq in E. exfalso. apply Na. rewrite <- E.
    apply in_map. exact Hr.
  - destruct (IH Nl I) as (l1 & l2 & E1 & E2).
    exists (a :: l1), l2. split; [simpl; congruence|].
    simpl. rewrite E2.
    destruct (pk a =? pk x) eqn:E; [|reflexivity].
    apply Nat.eqb_eq in E. exfalso. apply Na. rewrite E.
    apply in_map. exact I.
Qed.

Lemma filter_by_pk_split {A : Type} (pk : A -> nat) (l : list A) (x : A) :
  NoDup (map pk l) -> In x l ->
  exists l1 l2,
    l = l1 ++ x :: l2 /\
    filter (fun r => negb (pk r =? pk x)) l = l1 ++ l2.
Proof.
  induction l as [|a l IH]; simpl; intros N I; [tauto|].
  inversion N as [|? ? Na Nl]; subst.
  destruct I as [->|I].
  - exists [], l. split; [reflexivity|]. rewrite Nat.eqb_refl. simpl.
    apply filter_all. intros r Hr.
    destruct (pk r =? pk x) eqn:E; [|reflexivity].
    apply Nat.eqb_eq in E. exfalso. apply Na. rewrite <- E.
    apply in_map. exact Hr.
  - destruct (IH Nl I) as (l1 & l2 & E1 & E2).
    exists (a :: l1), l2. split; [simpl; congruence|].
    destruct (pk a =? pk x) eqn:E; simpl; [|rewrite E2; reflexivity].
    apply Nat.eqb_eq in E. exfalso. apply Na. rewrite E.
    apply in_map. exact I.
Qed.

(** The key of a new row is the key of no row of the table. *)
Lemma filter_next_pk {A : Type} (pk : A -> nat) (l : list A) (x : A) :
  pk x = next_pk pk l ->
  filter (fun r => negb (pk r =? pk x)) (l ++ [x]) = l.
Proof.
  intros E. rewrite filter_app. simpl. rewrite Nat.eqb_refl. simpl.
  rewrite app_nil_r. apply filter_all. intros r Hr.
  apply next_pk_above with (pk := pk) in Hr.
  destruct (pk r =? pk x) eqn:F; [|reflexivity].
  apply Nat.eqb_eq in F. lia.
Qed.

Lemma map_next_pk {A : Type} (pk : A -> nat) (g : A -> A) (l : list A)
  (x : A) :
  pk x = next_pk pk l ->
  map (fun r => if pk r =? pk x then g r else r) (l ++ [x]) = l ++ [g x].
Proof.
  intros E. rewrite map_app. simpl. rewrite Nat.eqb_refl. f_equal.
  rewrite <- (map_id l) at 2. apply map_ext_in. intros r Hr.
  apply next_pk_above with (pk := pk) in Hr.
  destruct (pk r =? pk x) eqn:F; [|reflexivity].
  apply Nat.eqb_eq in F. lia.
Qed.

(** ** The cases of [ChoiceView.post] *)

Lemma post_missing self request s db :
  articles_by_slug s db = [] ->
  post self request s db = (Raise (DoesNotExist ArticleModel), db).
Proof.
  intros E. unfold post, bind, Article_objects_get. rewrite E. reflexivity.
Qed.

Lemma post_anonymous self s db :
  snd (post self (mkRequest AnonymousUser) s db) = db.
Proof.
  unfold post, bind, Article_objects_get.
  destruct (queryset_get ArticleModel (articles_by_slug s db));
    reflexivity.
Qed.

Lemma post_create self u s db obj :
  articles_by_slug s db = [obj] ->
  filter (same_target ArticleType (article_pk obj) u) (likedislikes db) = [] ->
  let db' :=
    set_likedislikes
      (likedislikes db ++ [new_vote obj u (vote_type self) db]) db in
  post self (mkRequest (AuthenticatedUser u)) s db =
  (Ok (article_response obj db' HTTP_201_CREATED), db').
Proof.
  intros E F. unfold post, bind, Article_objects_get, try_except. rewrite E.
  simpl. rewrite F. reflexivity.
Qed.

Lemma post_switch self u s db obj r :
  articles_by_slug s db = [obj] ->
  filter (same_target ArticleType (article_pk obj) u) (likedislikes db)
  = [r] ->
  vote r <> vote_type self ->
  let db' :=
    set_likedislikes
      (map (fun x => if likedislike_pk x =? likedislike_pk r
                     then set_vote (vote_type self) x else x)
           (likedislikes db)) db in
  post self (mkRequest (AuthenticatedUser u)) s db =
  (Ok (article_response obj db' HTTP_201_CREATED), db').
Proof.
  intros E F V. apply vote_is_not_true in V.
  unfold post, bind, Article_objects_get, try_except. rewrite E.
  simpl. rewrite F. simpl. rewrite V. reflexivity.
Qed.

Lemma post_remove self u s db obj r :
  articles_by_slug s db = [obj] ->
  filter (same_target ArticleType (article_pk obj) u) (likedislikes db)
  = [r] ->
  vote r = vote_type self ->
  let db' :=
    set_likedislikes
      (filter (fun x => negb (likedislike_pk x =? likedislike_pk r))
              (likedislikes db)) db in
  post self (mkRequest (AuthenticatedUser u)) s db =
  (Ok (article_response obj db' HTTP_201_CREATED), db').
Proof.
  intros E F V. apply vote_is_not_false in V.
  unfold post, bind, Article_objects_get, try_except. rewrite E.
  simpl. rewrite F. simpl. rewrite V. reflexivity.
Qed.

Lemma Article_objects_get_Ok s db obj :
  fst (Article_objects_get s db) = Ok obj -> articles_by_slug s db = [obj].
Proof.
  unfold Article_objects_get. simpl.
  destruct (articles_by_slug s db) as [|a [|b l]]; simpl; congruence.
Qed.

(** Every call of [post] ends in one of four ways: an exception before any
    write, a new row, a switched row or a removed row. *)
Lemma post_cases self request s db :
  (exists e, post self request s db = (Raise e, db)) \/
  (exists obj u,
     request_user request = AuthenticatedUser u /\
     articles_by_slug s db = [obj] /\
     let key := same_target ArticleType (article_pk obj) u in
     let rows := likedislikes db in
     (filter key rows = [] /\
      post self request s db =
      (Ok (article_response obj
             (set_likedislikes (rows ++ [new_vote obj u (vote_type self) db])
                               db) HTTP_201_CREATED),
       set_likedislikes (rows ++ [new_vote obj u (vote_type self) db]) db))
     \/
     (exists r,
        filter key rows = [r] /\ vote r <> vote_type self /\
        let db' :=
          set_likedislikes
            (map (fun x => if likedislike_pk x =? likedislike_pk r
                           then set_vote (vote_type self) x else x) rows) db in
        post self request s db =
        (Ok (article_response obj db' HTTP_201_CREATED), db'))
     \/
     (exists r,
        filter key rows = [r] /\ vote r = vote_type self /\
        let db' :=
          set_likedislikes
            (filter (fun x => negb (likedislike_pk x =? likedislike_pk r))
                    rows) db in
        post self request s db =
        (Ok (article_response obj db' HTTP_201_CREATED), db'))).
Proof.
  destruct request as [[|u]].
  - left. unfold post, bind, Article_objects_get.
    destruct (articles_by_slug s db) as [|a [|b l]]; simpl; eauto.
  - destruct (articles_by_slug s db) as [|obj [|b l]] eqn:E.
    + left. eexists. apply post_missing. exact E.
    + destruct (filter (same_target ArticleType (article_pk obj) u)
                       (likedislikes db)) as [|r [|r' l]] eqn:F.
      * right. exists obj, u. split; [reflexivity|]. split; [reflexivity|].
        simpl. left. split; [exact F|]. apply post_create; assumption.
      * right. exists obj, u. split; [reflexivity|]. split; [reflexivity|].
        simpl. right. rewrite F.
        destruct (vote_is_not (vote r) (vote_type self)) eqn:V.
        -- left. exists r. apply vote_is_not_true in V.
           split; [reflexivity|]. split; [exact V|].
           apply post_switch; assumption.
        -- right. exists r. apply vote_is_not_false in V.
           split; [reflexivity|]. split; [exact V|].
           apply post_remove; assumption.
      * left. unfold post, bind, Article_objects_get, try_except.
        rewrite E. simpl. rewrite F. simpl. eauto.
    + left. unfold post, bind, Article_objects_get. rewrite E. simpl. eauto.
Qed.

(** ** The invariant of the ledger *)

Lemma ledger_unique_nil : ledger_unique [].
Proof. intros ct oid u. simpl. lia. Qed.

Lemma ledger_unique_filter (g : LikeDislike -> bool) rows :
  ledger_unique rows -> ledger_unique (filter g rows).
Proof.
  intros H ct oid u. specialize (H ct oid u).
  pose proof (filter_filter_length (same_target ct oid u) g rows). lia.
Qed.

Lemma ledger_unique_map (g : LikeDislike -> LikeDislike) rows :
  (forall ct oid u r, same_target ct oid u (g r) = same_target ct oid u r) ->
  ledger_unique rows -> ledger_unique (map g rows).
Proof.
  intros K H ct oid u. rewrite filter_map_key by (intros; apply K).
  rewrite length_map. apply H.
Qed.

Lemma ledger_unique_new rows r :
  ledger_unique rows ->
  filter (same_target (content_type r) (object_id r) (user r)) rows = [] ->
  ledger_unique (rows ++ [r]).
Proof.
  intros H E ct oid u. rewrite filter_app, length_app. simpl.
  destruct (same_target ct oid u r) eqn:K; simpl; [|specialize (H ct oid u); lia].
  apply same_target_true in K. destruct K as (<- & <- & <-).
  rewrite E. simpl. lia.
Qed.

Lemma ledger_unique_tail r rows :
  ledger_unique (r :: rows) -> ledger_unique rows.
Proof.
  intros H ct oid u. specialize (H ct oid u). simpl in H.
  destruct (same_target ct oid u r); simpl in H; lia.
Qed.

Lemma submit_ledger_unique s db :
  ledger_unique (likedislikes db) -> ledger_unique (likedislikes (submit s db)).
Proof.
  intros H. unfold submit.
  destruct (post_cases (sub_view s) (sub_request s) (sub_slug s) db)
    as [[e E]|(obj & u & _ & _ & C)].
  - rewrite E. exact H.
  - simpl in C. destruct C as [[F E]|[(r & F & V & E)|(r & F & V & E)]];
      rewrite E; simpl.
    + apply ledger_unique_new; [exact H|exact F].
    + apply ledger_unique_map; [|exact H].
      intros ct oid v x. destruct (likedislike_pk x =? likedislike_pk r);
        reflexivity.
    + apply ledger_unique_filter. exact H.
Qed.

Lemma submit_all_ledger_unique ss db :
  ledger_unique (likedislikes db) ->
  ledger_unique (likedislikes (submit_all ss db)).
Proof.
  revert db. induction ss as [|s ss IH]; intros db H; simpl; [exact H|].
  apply IH. apply submit_ledger_unique. exact H.
Qed.

Lemma reachable_ledger_unique db :
  reachable db -> ledger_unique (likedislikes db).
Proof.
  induction 1 as [db E|db s _ IH].
  - rewrite E. apply ledger_unique_nil.
  - apply submit_ledger_unique. exact IH.
Qed.

(** Under the invariant the users of the rows of one target are distinct. *)
Lemma votes_users_NoDup ct oid db :
  ledger_unique (likedislikes db) -> NoDup (map user (votes ct oid db)).
Proof.
  unfold votes. generalize (likedislikes db) as rows.
  induction rows as [|r rows IH]; intros H; simpl; [constructor|].
  pose proof (ledger_unique_tail H) as Ht.
  destruct (content_type_eqb (content_type r) ct && (object_id r =? oid))
    eqn:K; [|apply IH; exact Ht].
  simpl. constructor; [|apply IH; exact Ht].
  intros I. apply in_map_iff in I. destruct I as (x & Ux & Ix).
  apply filter_In in Ix. destruct Ix as [Ix Kx].
  specialize (H ct oid (user r)). simpl in H.
  assert (same_target ct oid (user r) r = true) as Kr
    by (unfold same_target; rewrite K, Nat.eqb_refl; reflexivity).
  rewrite Kr in H. simpl in H.
  assert (In x (filter (same_target ct oid (user r)) rows)) as Ix'.
  { apply filter_In. split; [exact Ix|].
    unfold same_target. rewrite Kx, Ux, Nat.eqb_refl. reflexivity. }
  destruct (filter (same_target ct oid (user r)) rows); simpl in *;
    [tauto|lia].
Qed.

Lemma likes_dislikes_length (qs : list LikeDislike) :
  List.length (likes qs) + List.length (dislikes qs) = List.length qs.
Proof.
  unfold likes, dislikes. induction qs as [|r qs IH]; simpl; [reflexivity|].
  destruct (vote r); simpl; lia.
Qed.

Lemma nodup_NoDup_length (l : list nat) :
  NoDup l -> List.length (nodup Nat.eq_dec l) = List.length l.
Proof. intros H. rewrite nodup_fixed_point by exact H. reflexivity. Qed.

(** ** Vote submissions *)

(** C1. A vote submission on an existing target: when the caller has no row
    on the target a row with the submitted vote is added; when the caller's
    row has the other vote that row takes the submitted vote, in its place,
    and keeps its key, target and user; when the caller's row has the
    submitted vote that row is removed. *)
Theorem ChoiceView_post_toggle self u s db obj :
  fst (Article_objects_get s db) = Ok obj ->
  ledger_unique (likedislikes db) ->
  NoDup (map likedislike_pk (likedislikes db)) ->
  let key := same_target ArticleType (article_pk obj) u in
  let rows := likedislikes db in
  let out := post self (request_of u) s db in
  (exists resp, fst out = Ok resp /\ status resp = HTTP_201_CREATED) /\
  ((forall r, In r rows -> key r = false) ->
   likedislikes (snd out) =
   rows ++ [mkLikeDislike (next_pk likedislike_pk rows) ArticleType
              (article_pk obj) u (vote_type self)]) /\
  (forall r, In r rows -> key r = true -> vote r <> vote_type self ->
   exists l1 l2,
     rows = l1 ++ r :: l2 /\
     likedislikes (snd out)
     = l1 ++ mkLikeDislike (likedislike_pk r) (content_type r) (object_id r)
                           (user r) (vote_type self) :: l2) /\
  (forall r, In r rows -> key r = true -> vote r = vote_type self ->
   exists l1 l2,
     rows = l1 ++ r :: l2 /\ likedislikes (snd out) = l1 ++ l2).
Proof.
  intros G U N key rows out. apply Article_objects_get_Ok in G.
  subst key rows out. unfold request_of. repeat split.
  - destruct (filter (same_target ArticleType (article_pk obj) u)
                     (likedislikes db)) as [|r [|r' l]] eqn:F.
    + rewrite (post_create self u s db G F). simpl. eauto.
    + destruct (vote_is_not (vote r) (vote_type self)) eqn:V.
      * apply vote_is_not_true in V.
        rewrite (post_switch self u s db G F V). simpl. eauto.
      * apply vote_is_not_false in V.
        rewrite (post_remove self u s db G F V). simpl. eauto.
    + specialize (U ArticleType (article_pk obj) u). rewrite F in U.
      simpl in U. lia.
  - intros H. apply filter_none in H.
    rewrite (post_create self u s db G H). reflexivity.
  - intros r I K V.
    pose proof (filter_singleton _ _ _ I K (U ArticleType (article_pk obj) u))
      as F.
    rewrite (post_switch self u s db G F V). simpl.
    destruct (@map_by_pk_split _ likedislike_pk (set_vote (vote_type self))
                _ _ N I) as (l1 & l2 & E1 & E2).
    exists l1, l2. split; [exact E1|exact E2].
  - intros r I K V.
    pose proof (filter_singleton _ _ _ I K (U ArticleType (article_pk obj) u))
      as F.
    rewrite (post_remove self u s db G F V). simpl.
    apply filter_by_pk_split; assumption.
Qed.

Lemma ChoiceView_post_toggle_witness :
  let r := mkLikeDislike 1 ArticleType 1 11 LIKE in
  exists l1 l2,
    likedislikes db_liked = l1 ++ r :: l2 /\
    likedislikes
      (snd (post article_dislike (request_of 11) "believer" db_liked))
    = l1 ++ mkLikeDislike 1 ArticleType 1 11 DISLIKE :: l2.
Proof.
  intros r.
  assert (fst (Article_objects_get "believer" db_liked) = Ok believer) as G
    by reflexivity.
  assert (ledger_unique (likedislikes db_liked)) as U.
  { intros ct oid u. simpl. destruct (same_target ct oid u _); simpl; lia. }
  assert (NoDup (map likedislike_pk (likedislikes db_liked))) as N.
  { simpl. constructor; [simpl; tauto|constructor]. }
  destruct (ChoiceView_post_toggle article_dislike 11 "believer" db_liked
              G U N) as (_ & _ & S & _).
  apply (S r); [simpl; tauto|reflexivity|discriminate].
Defined.

Lemma set_likedislikes_same db : set_likedislikes (likedislikes db) db = db.
Proof. destruct db; reflexivity. Qed.

Lemma set_likedislikes_reset rows db :
  set_likedislikes (likedislikes db) (set_likedislikes rows db) = db.
Proof. destruct db; reflexivity. Qed.

(** After a first vote the caller has the new row on the target, and no
    other. *)
Lemma filter_key_new obj u v db :
  filter (same_target ArticleType (article_pk obj) u) (likedislikes db) = [] ->
  filter (same_target ArticleType (article_pk obj) u)
         (likedislikes db ++ [new_vote obj u v db])
  = [new_vote obj u v db].
Proof.
  intros F. rewrite filter_app, F. simpl.
  unfold same_target. simpl. rewrite !Nat.eqb_refl. reflexivity.
Qed.

(** C2. A user without a row on a target who submits LIKE twice has no row
    on the target afterwards: the first submission adds the LIKE row of the
    user, the one row of the user on the target then; the second submission
    removes that row, and the database is the one before the two
    submissions. *)
Theorem like_twice_removes u s db obj :
  fst (Article_objects_get s db) = Ok obj ->
  filter (same_target ArticleType (article_pk obj) u) (likedislikes db) = [] ->
  exists resp1 db1 resp2 db2,
    post article_like (request_of u) s db = (Ok resp1, db1) /\
    post article_like (request_of u) s db1 = (Ok resp2, db2) /\
    filter (same_target ArticleType (article_pk obj) u) (likedislikes db2)
    = [] /\
    db2 = db /\
    likedislikes db1 = likedislikes db ++ [new_vote obj u LIKE db] /\
    filter (same_target ArticleType (article_pk obj) u) (likedislikes db1)
    = [new_vote obj u LIKE db].
Proof.
  intros G F. apply Article_objects_get_Ok in G. unfold request_of.
  pose proof (post_create article_like u s db G F) as P1. simpl in P1.
  set (db1 := set_likedislikes
                (likedislikes db ++ [new_vote obj u LIKE db]) db) in *.
  assert (articles_by_slug s db1 = [obj]) as G1 by exact G.
  pose proof (filter_key_new obj u LIKE db F) as F1.
  pose proof (post_remove article_like u s db1 G1 F1 eq_refl) as P2.
  cbv zeta in P2.
  change (likedislikes db1)
    with (likedislikes db ++ [new_vote obj u LIKE db]) in P2.
  rewrite filter_next_pk in P2 by reflexivity.
  assert (set_likedislikes (likedislikes db) db1 = db) as D
    by apply set_likedislikes_reset.
  rewrite D in P2.
  do 4 eexists. split; [exact P1|]. split; [exact P2|].
  split; [exact F|]. split; [reflexivity|]. split; [reflexivity|exact F1].
Qed.

Lemma like_twice_removes_witness :
  exists resp1 db1 resp2 db2,
    post article_like (request_of 11) "believer" db_fresh = (Ok resp1, db1) /\
    post article_like (request_of 11) "believer" db1 = (Ok resp2, db2) /\
    filter (same_target ArticleType 1 11) (likedislikes db2) = [] /\
    db2 = db_fresh /\
    likedislikes db1 = [mkLikeDislike 1 ArticleType 1 11 LIKE] /\
    filter (same_target ArticleType 1 11) (likedislikes db1)
    = [mkLikeDislike 1 ArticleType 1 11 LIKE].
Proof.
  apply (@like_twice_removes 11 "believer" db_fresh believer); reflexivity.
Defined.

(** C3. A user without a row on a target who submits LIKE and then DISLIKE
    has exactly one row on the target afterwards, with the vote DISLIKE:
    the row of the first submission, switched in its place. *)
Theorem like_then_dislike_switches u s db obj :
  fst (Article_objects_get s db) = Ok obj ->
  filter (same_target ArticleType (article_pk obj) u) (likedislikes db) = [] ->
  exists resp1 db1 resp2 db2,
    post article_like (request_of u) s db = (Ok resp1, db1) /\
    post article_dislike (request_of u) s db1 = (Ok resp2, db2) /\
    filter (same_target ArticleType (article_pk obj) u) (likedislikes db2)
    = [new_vote obj u DISLIKE db] /\
    likedislikes db1 = likedislikes db ++ [new_vote obj u LIKE db] /\
    likedislikes db2 = likedislikes db ++ [new_vote obj u DISLIKE db].
Proof.
  intros G F. apply Article_objects_get_Ok in G. unfold request_of.
  pose proof (post_create article_like u s db G F) as P1. simpl in P1.
  set (db1 := set_likedislikes
                (likedislikes db ++ [new_vote obj u LIKE db]) db) in *.
  assert (articles_by_slug s db1 = [obj]) as G1 by exact G.
  pose proof (filter_key_new obj u LIKE db F) as F1.
  assert (vote (new_vote obj u LIKE db) <> vote_type article_dislike) as V
    by discriminate.
  pose proof (post_switch article_dislike u s db1 G1 F1 V) as P2.
  cbv zeta in P2.
  change (likedislikes db1)
    with (likedislikes db ++ [new_vote obj u LIKE db]) in P2.
  change (vote_type article_dislike) with DISLIKE in P2.
  rewrite map_next_pk with (g := set_vote DISLIKE) in P2 by reflexivity.
  change (set_vote DISLIKE (new_vote obj u LIKE db))
    with (new_vote obj u DISLIKE db) in P2.
  do 4 eexists. split; [exact P1|]. split; [exact P2|].
  split; [|split; reflexivity].
  simpl. apply (filter_key_new obj u DISLIKE db F).
Qed.

Lemma like_then_dislike_switches_witness :
  exists resp1 db1 resp2 db2,
    post article_like (request_of 11) "believer" db_fresh = (Ok resp1, db1) /\
    post article_dislike (request_of 11) "believer" db1 = (Ok resp2, db2) /\
    filter (same_target ArticleType 1 11) (likedislikes db2)
    = [mkLikeDislike 1 ArticleType 1 11 DISLIKE] /\
    likedislikes db1 = [mkLikeDislike 1 ArticleType 1 11 LIKE] /\
    likedislikes db2 = [mkLikeDislike 1 ArticleType 1 11 DISLIKE].
Proof.
  apply (@like_then_dislike_switches 11 "believer" db_fresh believer);
    reflexivity.
Defined.

(** C4. At most one row per (target type, target identifier, user): every
    sequence of vote submissions keeps it so, and it is so in every state
    that vote submissions reach from an empty ledger. *)
Theorem ledger_unique_invariant :
  (forall db ss,
     ledger_unique (likedislikes db) ->
     ledger_unique (likedislikes (submit_all ss db))) /\
  (forall db, reachable db -> ledger_unique (likedislikes db)).
Proof.
  split.
  - intros db ss. apply submit_all_ledger_unique.
  - apply reachable_ledger_unique.
Qed.

Lemma ledger_unique_invariant_witness :
  ledger_unique
    (likedislikes
       (submit_all
          [mkSubmission article_like (request_of 11) "believer";
           mkSubmission article_dislike (request_of 12) "believer";
           mkSubmission article_dislike (request_of 11) "believer"]
          db_fresh)).
Proof.
  apply (proj1 ledger_unique_invariant).
  intros ct oid u. simpl. lia.
Defined.

(** C5. A vote submission whose slug names no article writes nothing, and
    ends in the [DoesNotExist] of the article lookup, which [post] neither
    catches nor turns into [Http404]; the favorite views, on the same slug,
    raise [Http404]. *)
Theorem post_missing_target self request s db :
  (forall a, In a (articles db) -> slug a <> s) ->
  post self request s db = (Raise (DoesNotExist ArticleModel), db) /\
  (forall u,
     FavoriteArticle_create (request_of u) s db = (Raise Http404, db) /\
     UnFavoriteArticle_destroy (request_of u) s db = (Raise Http404, db)).
Proof.
  intros H.
  assert (articles_by_slug s db = []) as G.
  { unfold articles_by_slug. apply filter_none. intros a I.
    apply String.eqb_neq. apply H. exact I. }
  split; [apply post_missing; exact G|].
  intros u.
  unfold FavoriteArticle_create, UnFavoriteArticle_destroy, bind,
    user_profile, get_object.
  simpl. rewrite G. split; reflexivity.
Qed.

Lemma post_missing_target_witness :
  post article_like (request_of 11) "no-such-article" db_liked
  = (Raise (DoesNotExist ArticleModel), db_liked) /\
  (forall u,
     FavoriteArticle_create (request_of u) "no-such-article" db_liked
     = (Raise Http404, db_liked) /\
     UnFavoriteArticle_destroy (request_of u) "no-such-article" db_liked
     = (Raise Http404, db_liked)).
Proof.
  apply (@post_missing_target article_like (request_of 11) "no-such-article"
           db_liked).
  simpl. intros a [<-|[]]. discriminate.
Defined.

(** C6. A vote submission of a caller who is not authenticated is rejected
    at the permission gate with [NotAuthenticated] and writes nothing; under
    any permission classes it writes nothing. *)
Theorem ChoiceView_rejects_anonymous :
  forall self s db,
    ChoiceView_dispatch DEFAULT_PERMISSION_CLASSES self
      (mkRequest AnonymousUser) s db
    = (Raise NotAuthenticated, db) /\
    (forall defaults,
       snd (ChoiceView_dispatch defaults self (mkRequest AnonymousUser) s db)
       = db).
Proof.
  intros self s db. split; [reflexivity|].
  intros defaults. unfold ChoiceView_dispatch, dispatch, check_permissions.
  unfold bind at 1.
  destruct (forallb (has_permission (mkRequest AnonymousUser)) defaults);
    simpl; [apply post_anonymous|reflexivity].
Qed.

(** C7. In every state that vote submissions reach, the LIKE rows and the
    DISLIKE rows of a target are together as many as the distinct users
    with a row on the target; so for the counts that the article serializer
    reports. *)
Theorem reaction_counts_distinct_users db :
  reachable db ->
  (forall ct oid,
     List.length (likes (votes ct oid db))
     + List.length (dislikes (votes ct oid db))
     = List.length (nodup Nat.eq_dec (map user (votes ct oid db)))) /\
  (forall a, exists n m,
     get_likes a db = (Ok n, db) /\ get_dislikes a db = (Ok m, db) /\
     n + m = List.length
               (nodup Nat.eq_dec
                  (map user (votes ArticleType (article_pk a) db)))).
Proof.
  intros R. apply reachable_ledger_unique in R.
  assert (forall ct oid,
     List.length (likes (votes ct oid db))
     + List.length (dislikes (votes ct oid db))
     = List.length (nodup Nat.eq_dec (map user (votes ct oid db)))) as H.
  { intros ct oid. rewrite likes_dislikes_length.
    rewrite nodup_NoDup_length by (apply votes_users_NoDup; exact R).
    rewrite length_map. reflexivity. }
  split; [exact H|].
  intros a. do 2 eexists. split; [reflexivity|]. split; [reflexivity|].
  apply H.
Qed.

Lemma reaction_counts_distinct_users_witness :
  let db :=
    submit_all
      [mkSubmission article_like (request_of 11) "believer";
       mkSubmission article_dislike (request_of 12) "believer"]
      db_fresh in
  List.length (likes (votes ArticleType 1 db))
  + List.length (dislikes (votes ArticleType 1 db))
  = List.length (nodup Nat.eq_dec (map user (votes ArticleType 1 db))).
Proof.
  intros db.
  apply (proj1 (@reaction_counts_distinct_users db
                  (reachable_submit _
                     (reachable_submit _
                        (reachable_empty db_fresh eq_refl))))).
Defined.

(** C8. A vote submission that succeeds adds one row, or changes the vote of
    one row to the submitted vote, which that row did not have, or removes
    one row of the ledger; every other row of the ledger and the users,
    articles, comments, favorites and ratings stay as they are. *)
Theorem ChoiceView_post_frame self request s db resp db' :
  NoDup (map likedislike_pk (likedislikes db)) ->
  post self request s db = (Ok resp, db') ->
  users db' = users db /\ articles db' = articles db /\
  comments db' = comments db /\ favorites db' = favorites db /\
  ratings db' = ratings db /\
  ((exists r, likedislikes db' = likedislikes db ++ [r]) \/
   (exists l1 r l2,
      likedislikes db = l1 ++ r :: l2 /\ vote r <> vote_type self /\
      likedislikes db'
      = l1 ++ mkLikeDislike (likedislike_pk r) (content_type r) (object_id r)
                            (user r) (vote_type self) :: l2) \/
   (exists l1 r l2,
      likedislikes db = l1 ++ r :: l2 /\ likedislikes db' = l1 ++ l2)).
Proof.
  intros N P.
  destruct (post_cases self request s db) as [[e E]|(obj & u & _ & _ & C)].
  - rewrite E in P. discriminate.
  - simpl in C. destruct C as [[F E]|[(r & F & V & E)|(r & F & V & E)]];
      rewrite E in P; inversion P; subst; clear P; simpl;
      repeat (split; [reflexivity|]).
    + left. eauto.
    + right. left.
      assert (In r (likedislikes db)) as I.
      { assert (In r [r]) as I by (simpl; tauto). rewrite <- F in I.
        apply filter_In in I. tauto. }
      destruct (@map_by_pk_split _ likedislike_pk
                  (set_vote (vote_type self)) _ _ N I)
        as (l1 & l2 & E1 & E2).
      exists l1, r, l2. split; [exact E1|]. split; [exact V|exact E2].
    + right. right.
      assert (In r (likedislikes db)) as I.
      { assert (In r [r]) as I by (simpl; tauto). rewrite <- F in I.
        apply filter_In in I. tauto. }
      destruct (@filter_by_pk_split _ likedislike_pk _ _ N I)
        as (l1 & l2 & E1 & E2).
      exists l1, r, l2. auto.
Qed.

Lemma ChoiceView_post_frame_witness :
  let db' := snd (post article_dislike (request_of 11) "believer" db_liked) in
  users db' = users db_liked /\ articles db' = articles db_liked /\
  comments db' = comments db_liked /\ favorites db' = favorites db_liked /\
  ratings db' = ratings db_liked /\
  exists l1 r l2,
    likedislikes db_liked = l1 ++ r :: l2 /\ vote r <> DISLIKE /\
    likedislikes db'
    = l1 ++ mkLikeDislike (likedislike_pk r) (content_type r) (object_id r)
                          (user r) DISLIKE :: l2.
Proof.
  intros db'.
  destruct (@ChoiceView_post_frame article_dislike (request_of 11) "believer"
              db_liked (article_response believer db' HTTP_201_CREATED) db')
    as (U & A & C & F & R & [(r & E)|[E|(l1 & r & l2 & E1 & E2)]]).
  - simpl. constructor; [simpl; tauto|constructor].
  - reflexivity.
  - exfalso. apply (f_equal (@List.length _)) in E.
    rewrite length_app in E. simpl in E. lia.
  - repeat (split; [assumption|]). exact E.
  - exfalso. apply (f_equal (@List.length _)) in E1, E2.
    rewrite length_app in E1, E2. simpl in E1, E2. lia.
Defined.

(** ** Favorites *)

Lemma favorite_eqb_true p q : favorite_eqb p q = true <-> p = q.
Proof.
  destruct p as [a b], q as [c d]. unfold favorite_eqb. simpl.
  rewrite andb_true_iff, !Nat.eqb_eq. split; [intros [-> ->]|intros [= -> ->]];
    auto.
Qed.

Lemma has_favorited_In u a favs :
  existsb (favorite_eqb (u, a)) favs = true <-> In (u, a) favs.
Proof.
  rewrite existsb_exists. split.
  - intros (x & I & E). apply favorite_eqb_true in E. subst. exact I.
  - intros I. exists (u, a). split; [exact I|]. apply favorite_eqb_true.
    reflexivity.
Qed.

Lemma articles_by_slug_In s db article :
  articles_by_slug s db = [article] ->
  In article (articles db) /\ slug article = s.
Proof.
  intros E. assert (In article (articles_by_slug s db)) as I
    by (rewrite E; simpl; tauto).
  apply filter_In in I. rewrite String.eqb_eq in I. exact I.
Qed.

Lemma nodup_length_snoc (l : list nat) (u : nat) :
  ~ In u l ->
  List.length (nodup Nat.eq_dec (l ++ [u]))
  = S (List.length (nodup Nat.eq_dec l)).
Proof.
  intros H. induction l as [|a l IH]; simpl; [reflexivity|].
  simpl in H. assert (a <> u) as Na by tauto. assert (~ In u l) as Nl by tauto.
  specialize (IH Nl).
  destruct (in_dec Nat.eq_dec a (l ++ [u])) as [I|I],
           (in_dec Nat.eq_dec a l) as [J|J]; simpl; try lia.
  - apply in_app_or in I. simpl in I. exfalso. intuition congruence.
  - exfalso. apply I. apply in_or_app. tauto.
Qed.

Lemma nodup_length_remove (l : list nat) (u : nat) :
  In u l ->
  List.length (nodup Nat.eq_dec l)
  = S (List.length
         (nodup Nat.eq_dec (filter (fun x => negb (x =? u)) l))).
Proof.
  induction l as [|a l IH]; simpl; [tauto|]. intros H.
  destruct (Nat.eq_dec a u) as [->|Na].
  - rewrite Nat.eqb_refl. simpl.
    destruct (in_dec Nat.eq_dec u l) as [I|I]; [apply IH; exact I|].
    simpl. f_equal. f_equal. f_equal. symmetry. apply filter_all.
    intros x Hx. destruct (x =? u) eqn:E; [|reflexivity].
    apply Nat.eqb_eq in E. subst. tauto.
  - assert (In u l) as I by (destruct H; [congruence|assumption]).
    specialize (IH I).
    assert ((a =? u) = false) as E by (apply Nat.eqb_neq; exact Na).
    rewrite E. simpl.
    destruct (in_dec Nat.eq_dec a l) as [J|J],
             (in_dec Nat.eq_dec a (filter (fun x => negb (x =? u)) l))
               as [K|K]; simpl; try lia.
    + exfalso. apply K. apply filter_In. rewrite E. auto.
    + exfalso. apply filter_In in K. tauto.
Qed.

(** The users of one article after another pair joins or leaves. *)
Lemma favorited_by_add_same u a db :
  existsb (favorite_eqb (u, a)) (favorites db) = false ->
  List.length (favorited_by a (set_favorites (favorites db ++ [(u, a)]) db))
  = S (List.length (favorited_by a db)).
Proof.
  intros H. unfold favorited_by. simpl.
  rewrite filter_app, map_app. simpl. rewrite Nat.eqb_refl. simpl.
  apply nodup_length_snoc. intros I. apply in_map_iff in I.
  destruct I as ([u' a'] & E & I). simpl in E. subst u'.
  apply filter_In in I. destruct I as [I A]. simpl in A.
  apply Nat.eqb_eq in A. subst a'.
  apply has_favorited_In in I. congruence.
Qed.

Lemma favorited_by_add_other u a b db :
  b <> a ->
  favorited_by b (set_favorites (favorites db ++ [(u, a)]) db)
  = favorited_by b db.
Proof.
  intros H. unfold favorited_by. simpl. rewrite filter_app. simpl.
  assert ((a =? b) = false) as E by (apply Nat.eqb_neq; congruence).
  rewrite E, app_nil_r. reflexivity.
Qed.

Lemma users_after_remove u a (favs : list (nat * nat)) :
  map fst
    (filter (fun p => snd p =? a)
       (filter (fun p => negb (favorite_eqb (u, a) p)) favs))
  = filter (fun x => negb (x =? u))
      (map fst (filter (fun p => snd p =? a) favs)).
Proof.
  induction favs as [|[u' a'] l IH]; simpl; [reflexivity|].
  unfold favorite_eqb at 1. simpl.
  destruct (a' =? a) eqn:A.
  - apply Nat.eqb_eq in A. subst a'. rewrite Nat.eqb_refl, andb_true_r.
    rewrite (Nat.eqb_sym u u').
    destruct (u' =? u) eqn:U; simpl; rewrite ?Nat.eqb_refl, ?U; simpl;
      rewrite IH; reflexivity.
  - rewrite (Nat.eqb_sym a a'), A, andb_false_r. simpl. rewrite A.
    exact IH.
Qed.

Lemma favorited_by_remove_same u a db :
  existsb (favorite_eqb (u, a)) (favorites db) = true ->
  List.length (favorited_by a db)
  = S (List.length
         (favorited_by a
            (set_favorites
               (filter (fun p => negb (favorite_eqb (u, a) p)) (favorites db))
               db))).
Proof.
  intros H. apply has_favorited_In in H. unfold favorited_by. simpl.
  rewrite users_after_remove. apply nodup_length_remove.
  apply in_map_iff. exists (u, a). split; [reflexivity|].
  apply filter_In. split; [exact H|]. simpl. apply Nat.eqb_refl.
Qed.

Lemma favorited_by_remove_other u a b db :
  b <> a ->
  favorited_by b
    (set_favorites
       (filter (fun p => negb (favorite_eqb (u, a) p)) (favorites db)) db)
  = favorited_by b db.
Proof.
  intros H. unfold favorited_by. simpl. f_equal. f_equal.
  induction (favorites db) as [|[u' a'] l IH]; simpl; [reflexivity|].
  unfold favorite_eqb at 1. simpl.
  destruct (a' =? b) eqn:B.
  - apply Nat.eqb_eq in B. subst a'.
    assert ((a =? b) = false) as E by (apply Nat.eqb_neq; congruence).
    rewrite E, andb_false_r. simpl. rewrite Nat.eqb_refl, IH. reflexivity.
  - destruct ((u =? u') && (a =? a')); simpl; rewrite ?B; exact IH.
Qed.

Lemma favorited_by_set_articles a rows db :
  favorited_by a (set_articles rows db) = favorited_by a db.
Proof. reflexivity. Qed.

Lemma create_unfound request s db :
  (forall article, articles_by_slug s db <> [article]) ->
  exists e, FavoriteArticle_create request s db = (Raise e, db).
Proof.
  intros H. unfold FavoriteArticle_create, bind, user_profile, get_object.
  destruct (request_user request) as [|u]; simpl; [eauto|].
  destruct (articles_by_slug s db) as [|a [|b l]]; simpl; eauto.
  exfalso. apply (H a). reflexivity.
Qed.

Lemma destroy_unfound request s db :
  (forall article, articles_by_slug s db <> [article]) ->
  exists e, UnFavoriteArticle_destroy request s db = (Raise e, db).
Proof.
  intros H. unfold UnFavoriteArticle_destroy, bind, user_profile, get_object.
  destruct (request_user request) as [|u]; simpl; [eauto|].
  destruct (articles_by_slug s db) as [|a [|b l]]; simpl; eauto.
  exfalso. apply (H a). reflexivity.
Qed.

Lemma create_anonymous s db :
  FavoriteArticle_create (mkRequest AnonymousUser) s db
  = (Raise AttributeError, db).
Proof. reflexivity. Qed.

Lemma destroy_anonymous s db :
  UnFavoriteArticle_destroy (mkRequest AnonymousUser) s db
  = (Raise AttributeError, db).
Proof. reflexivity. Qed.

Lemma create_rejected u s db article :
  articles_by_slug s db = [article] ->
  author_id article = u \/
  existsb (favorite_eqb (u, article_pk article)) (favorites db) = true ->
  exists msg,
    FavoriteArticle_create (request_of u) s db
    = (Ok (mkResponse (MessageBody msg) HTTP_400_BAD_REQUEST), db).
Proof.
  intros G H.
  unfold FavoriteArticle_create, bind, user_profile, get_object,
    has_favorited, query.
  simpl. rewrite G. simpl.
  destruct (author_id article =? u) eqn:A; [eexists; reflexivity|].
  destruct H as [H|H]; [apply Nat.eqb_neq in A; congruence|].
  rewrite H. eexists; reflexivity.
Qed.

Lemma create_accepted u s db article :
  articles_by_slug s db = [article] ->
  author_id article <> u ->
  existsb (favorite_eqb (u, article_pk article)) (favorites db) = false ->
  let article' :=
    set_favorites_count (favorites_count article + 1)
                        (set_favorited true article) in
  let db' :=
    set_articles
      (map (fun a => if article_pk a =? article_pk article
                     then article' else a) (articles db))
      (set_favorites (favorites db ++ [(u, article_pk article)]) db) in
  FavoriteArticle_create (request_of u) s db
  = (Ok (article_response article' db' HTTP_201_CREATED), db').
Proof.
  intros G A H.
  unfold FavoriteArticle_create, bind, user_profile, get_object,
    has_favorited, favorite, query, execute, Article_save.
  simpl. rewrite G. simpl.
  apply Nat.eqb_neq in A. rewrite A, H. simpl. rewrite H. reflexivity.
Qed.

Lemma destroy_rejected u s db article :
  articles_by_slug s db = [article] ->
  existsb (favorite_eqb (u, article_pk article)) (favorites db) = false ->
  exists msg,
    UnFavoriteArticle_destroy (request_of u) s db
    = (Ok (mkResponse (MessageBody msg) HTTP_400_BAD_REQUEST), db).
Proof.
  intros G H.
  unfold UnFavoriteArticle_destroy, bind, user_profile, get_object,
    has_favorited, query.
  simpl. rewrite G. simpl. rewrite H. simpl. eexists; reflexivity.
Qed.

Lemma destroy_accepted u s db article :
  articles_by_slug s db = [article] ->
  existsb (favorite_eqb (u, article_pk article)) (favorites db) = true ->
  let article' :=
    if (favorites_count article >? 0)%Z
    then
      if (favorites_count article - 1 =? 0)%Z
      then set_favorited false
             (set_favorites_count (favorites_count article - 1) article)
      else set_favorites_count (favorites_count article - 1) article
    else article in
  let db' :=
    set_articles
      (map (fun a => if article_pk a =? article_pk article
                     then article' else a) (articles db))
      (set_favorites
         (filter (fun p => negb (favorite_eqb (u, article_pk article) p))
                 (favorites db)) db) in
  UnFavoriteArticle_destroy (request_of u) s db
  = (Ok (article_response article' db' HTTP_204_NO_CONTENT), db').
Proof.
  intros G H.
  unfold UnFavoriteArticle_destroy, bind, user_profile, get_object,
    has_favorited, unfavorite, query, execute, Article_save.
  simpl. rewrite G. simpl. rewrite H. simpl.
  destruct (favorites_count article >? 0)%Z; [|reflexivity].
  destruct (favorites_count article - 1 =? 0)%Z; reflexivity.
Qed.

Lemma singleton_or_not {A : Type} (l : list A) :
  (exists x, l = [x]) \/ (forall x, l <> [x]).
Proof.
  destruct l as [|a [|b l]]; [right|left|right]; eauto; congruence.
Qed.

Lemma create_consistent request s db pk :
  favorites_consistent pk db ->
  favorites_consistent pk (snd (FavoriteArticle_create request s db)).
Proof.
  intros C. destruct request as [[|u]]; [exact C|].
  destruct (singleton_or_not (articles_by_slug s db)) as [[article G]|G].
  2:{ destruct (@create_unfound (mkRequest (AuthenticatedUser u)) s db G)
        as [e E]. rewrite E. exact C. }
  destruct (Nat.eq_dec (author_id article) u) as [A|A].
  { destruct (@create_rejected u s db article G (or_introl A)) as [msg E].
    unfold request_of in E. rewrite E. exact C. }
  destruct (existsb (favorite_eqb (u, article_pk article)) (favorites db))
    eqn:H.
  { destruct (@create_rejected u s db article G (or_intror H)) as [msg E].
    unfold request_of in E. rewrite E. exact C. }
  pose proof (@create_accepted u s db article G A H) as E.
  unfold request_of in E.
  rewrite E. clear E. simpl. intros a' I Pa. simpl in I.
  apply in_map_iff in I. destruct I as (a & Ea & Ia).
  rewrite favorited_by_set_articles.
  destruct (article_pk a =? article_pk article) eqn:K; subst a'.
  - simpl in Pa. subst pk. simpl.
    rewrite favorited_by_add_same by exact H.
    apply articles_by_slug_In in G. destruct G as [G _].
    rewrite (C article G eq_refl). lia.
  - apply Nat.eqb_neq in K. subst pk.
    rewrite favorited_by_add_other by exact K.
    apply C; [exact Ia|reflexivity].
Qed.

Lemma destroy_consistent request s db pk :
  favorites_consistent pk db ->
  favorites_consistent pk (snd (UnFavoriteArticle_destroy request s db)).
Proof.
  intros C. destruct request as [[|u]]; [exact C|].
  destruct (singleton_or_not (articles_by_slug s db)) as [[article G]|G].
  2:{ destruct (@destroy_unfound (mkRequest (AuthenticatedUser u)) s db G)
        as [e E]. rewrite E. exact C. }
  destruct (existsb (favorite_eqb (u, article_pk article)) (favorites db))
    eqn:H.
  2:{ destruct (@destroy_rejected u s db article G H) as [msg E].
      unfold request_of in E. rewrite E. exact C. }
  pose proof (@destroy_accepted u s db article G H) as E.
  unfold request_of in E.
  rewrite E. clear E. simpl. intros a' I Pa. simpl in I.
  apply in_map_iff in I. destruct I as (a & Ea & Ia).
  rewrite favorited_by_set_articles.
  pose proof (@favorited_by_remove_same u (article_pk article) db H) as L.
  apply articles_by_slug_In in G. destruct G as [G _].
  destruct (article_pk a =? article_pk article) eqn:K; subst a'.
  - assert (article_pk article = pk) as Pk.
    { rewrite <- Pa. destruct (favorites_count article >? 0)%Z;
        [|reflexivity].
      destruct (favorites_count article - 1 =? 0)%Z; reflexivity. }
    clear Pa. subst pk. pose proof (C article G eq_refl) as Ca.
    assert ((favorites_count article >? 0)%Z = true) as P
      by (apply Z.gtb_lt; lia).
    rewrite P.
    destruct (favorites_count article - 1 =? 0)%Z; simpl; lia.
  - apply Nat.eqb_neq in K. subst pk.
    rewrite favorited_by_remove_other by exact K.
    apply C; [exact Ia|reflexivity].
Qed.

Lemma favorite_calls_consistent cs db pk :
  favorites_consistent pk db -> favorites_consistent pk (favorite_calls cs db).
Proof.
  revert db. induction cs as [|c cs IH]; intros db C; simpl; [exact C|].
  apply IH. destruct c as [[[|u]] s|[[|u]] s]; simpl; try exact C.
  - apply (@create_consistent (mkRequest (AuthenticatedUser u)) s db pk C).
  - apply (@destroy_consistent (mkRequest (AuthenticatedUser u)) s db pk C).
Qed.

(** C9. From a state in which the counter of an article is the number of
    users who have favorited it, every sequence of favorite and unfavorite
    calls, on any articles and by any callers, leads to such a state.  On
    that article, when the slug selects it: a
    favorite of one's own article or of an article already favorited, and an
    unfavorite of an article not favorited, answer 400 and change nothing; a
    favorite that succeeds adds the pair of the user and the article and
    puts the counter one up; an unfavorite that succeeds removes the pair
    and puts the counter one down. *)
Theorem favorites_count_consistent db pk :
  favorites_consistent pk db ->
  (forall cs, favorites_consistent pk (favorite_calls cs db)) /\
  (forall u s article,
     articles_by_slug s db = [article] ->
     article_pk article = pk ->
     let had := existsb (favorite_eqb (u, pk)) (favorites db) in
     (author_id article = u \/ had = true ->
      exists msg,
        FavoriteArticle_create (request_of u) s db
        = (Ok (mkResponse (MessageBody msg) HTTP_400_BAD_REQUEST), db)) /\
     (author_id article <> u -> had = false ->
      exists resp db' article',
        FavoriteArticle_create (request_of u) s db = (Ok resp, db') /\
        status resp = HTTP_201_CREATED /\
        favorites db' = favorites db ++ [(u, pk)] /\
        List.length (favorited_by pk db') = S (List.length (favorited_by pk db)) /\
        In article' (articles db') /\
        favorites_count article' = (favorites_count article + 1)%Z /\
        (forall a, In a (articles db') -> article_pk a = pk -> a = article')) /\
     (had = false ->
      exists msg,
        UnFavoriteArticle_destroy (request_of u) s db
        = (Ok (mkResponse (MessageBody msg) HTTP_400_BAD_REQUEST), db)) /\
     (had = true ->
      exists resp db' article',
        UnFavoriteArticle_destroy (request_of u) s db = (Ok resp, db') /\
        status resp = HTTP_204_NO_CONTENT /\
        existsb (favorite_eqb (u, pk)) (favorites db') = false /\
        S (List.length (favorited_by pk db')) = List.length (favorited_by pk db) /\
        In article' (articles db') /\
        favorites_count article' = (favorites_count article - 1)%Z /\
        (forall a, In a (articles db') -> article_pk a = pk -> a = article'))).
Proof.
  intros C. split; [intros cs; apply favorite_calls_consistent; exact C|].
  intros u s article G Pk had. subst pk.
  pose proof (@articles_by_slug_In _ _ _ G) as [I _].
  assert (forall article' : Article,
            In article'
               (map (fun a => if article_pk a =? article_pk article
                              then article' else a) (articles db))) as Iin.
  { intros article'. apply in_map_iff. exists article.
    rewrite Nat.eqb_refl. auto. }
  assert (forall article' a : Article,
            In a (map (fun a => if article_pk a =? article_pk article
                                then article' else a) (articles db)) ->
            article_pk a = article_pk article ->
            article_pk article' = article_pk article -> a = article')
    as Iall.
  { intros article' a Ia Pa Pk. apply in_map_iff in Ia.
    destruct Ia as (x & Ex & _).
    destruct (article_pk x =? article_pk article) eqn:K; [congruence|].
    apply Nat.eqb_neq in K. congruence. }
  repeat split.
  - intros H. apply create_rejected with (article := article); assumption.
  - intros A H. subst had.
    pose proof (@create_accepted u s db article G A H) as E. cbv zeta in E.
    do 3 eexists. split; [exact E|]. split; [reflexivity|].
    split; [reflexivity|]. split.
    { rewrite favorited_by_set_articles. apply favorited_by_add_same.
      exact H. }
    split; [apply Iin|]. split; [reflexivity|].
    intros a Ia Pa. apply (Iall _ a Ia Pa). reflexivity.
  - intros H. apply destroy_rejected with (article := article); assumption.
  - intros H. subst had.
    pose proof (@destroy_accepted u s db article G H) as E. cbv zeta in E.
    pose proof (@favorited_by_remove_same u (article_pk article) db H) as L.
    pose proof (C article I eq_refl) as Ca.
    assert ((favorites_count article >? 0)%Z = true) as P
      by (apply Z.gtb_lt; lia).
    rewrite P in E.
    do 3 eexists. split; [exact E|]. split; [reflexivity|]. split.
    { simpl. match goal with |- ?t = false => destruct t eqn:X end;
        [|reflexivity].
      apply has_favorited_In in X. apply filter_In in X.
      destruct X as [_ X]. apply negb_true_iff in X.
      assert (favorite_eqb (u, article_pk article) (u, article_pk article)
              = true) as T by (apply favorite_eqb_true; reflexivity).
      congruence. }
    split; [rewrite favorited_by_set_articles; symmetry; exact L|].
    split; [apply Iin|].
    split.
    { destruct (favorites_count article - 1 =? 0)%Z; reflexivity. }
    intros a Ia Pa. apply (Iall _ a Ia Pa).
    destruct (favorites_count article - 1 =? 0)%Z; reflexivity.
Qed.

Lemma favorites_count_consistent_witness :
  favorites_consistent 1
    (favorite_calls
       [Favor (request_of 11) "believer";
        Favor (request_of 12) "believer";
        Favor (request_of 11) "believer";
        Unfavor (request_of 11) "believer";
        Unfavor (request_of 10) "believer"]
       db_fresh).
Proof.
  apply (@favorites_count_consistent db_fresh 1).
  intros a [<-|[]] _. reflexivity.
Defined.

(** ** Ratings *)

Lemma ratings_unique_nil : ratings_unique [].
Proof. intros author article. simpl. lia. Qed.

Lemma ratings_unique_new rows r :
  ratings_unique rows ->
  ratings_of (rating_author r) (rating_article r) rows = [] ->
  ratings_unique (rows ++ [r]).
Proof.
  intros H E author article. unfold ratings_of in *.
  rewrite filter_app, length_app. simpl.
  destruct ((rating_author r =? author) && (rating_article r =? article))
    eqn:K; simpl; [|specialize (H author article); unfold ratings_of in H; lia].
  apply andb_true_iff in K. rewrite !Nat.eqb_eq in K. destruct K as [<- <-].
  rewrite E. simpl. lia.
Qed.

(** A rating of the author on the article is found by the lookup on the
    slug of the article, when the article is a row of the table. *)
Lemma rating_matches_of author article db r :
  In article (articles db) ->
  rating_author r = author -> rating_article r = article_pk article ->
  rating_matches author (slug article) db r = true.
Proof.
  intros I A P. unfold rating_matches. apply andb_true_iff. split.
  - apply Nat.eqb_eq. exact A.
  - apply existsb_exists. exists article. split; [exact I|].
    rewrite P, Nat.eqb_refl, String.eqb_refl. reflexivity.
Qed.

(** Writing back a row of the table under its own key, with another score,
    changes that one place. *)
Lemma rating_save_split rows r sc :
  NoDup (map rating_pk rows) -> In r rows ->
  exists l1 l2,
    rows = l1 ++ r :: l2 /\
    map (fun x => if rating_pk x =? rating_pk (set_score sc r)
                  then set_score sc r else x) rows
    = l1 ++ set_score sc r :: l2.
Proof.
  intros N I.
  destruct (@map_by_pk_split _ rating_pk (fun _ => set_score sc r) _ _ N I)
    as (l1 & l2 & E1 & E2).
  exists l1, l2. split; [exact E1|]. exact E2.
Qed.

Lemma create_new vd db :
  filter (rating_matches (vd_author vd) (slug (vd_article vd)) db) (ratings db)
  = [] ->
  let rating :=
    mkRating (next_pk rating_pk (ratings db)) (vd_author vd)
             (article_pk (vd_article vd)) (vd_score vd) in
  RatingSerializer_create vd db
  = (Ok rating, set_ratings (ratings db ++ [rating]) db).
Proof.
  intros F.
  unfold RatingSerializer_create, bind, try_except, Rating_objects_get.
  rewrite F. reflexivity.
Qed.

Lemma create_found vd db r :
  filter (rating_matches (vd_author vd) (slug (vd_article vd)) db) (ratings db)
  = [r] ->
  RatingSerializer_create vd db
  = (Ok (set_score (vd_score vd) r),
     set_ratings
       (map (fun x => if rating_pk x =? rating_pk (set_score (vd_score vd) r)
                      then set_score (vd_score vd) r else x)
            (ratings db)) db).
Proof.
  intros F.
  unfold RatingSerializer_create, bind, try_except, Rating_objects_get.
  rewrite F. reflexivity.
Qed.

Lemma create_many vd db r r' l :
  filter (rating_matches (vd_author vd) (slug (vd_article vd)) db) (ratings db)
  = r :: r' :: l ->
  RatingSerializer_create vd db
  = (Raise (MultipleObjectsReturned RatingModel), db).
Proof.
  intros F.
  unfold RatingSerializer_create, bind, try_except, Rating_objects_get.
  rewrite F. reflexivity.
Qed.

Lemma rate_articles vd db :
  articles (snd (RatingSerializer_create vd db)) = articles db.
Proof.
  destruct (filter (rating_matches (vd_author vd) (slug (vd_article vd)) db)
                   (ratings db)) as [|r [|r' l]] eqn:F.
  - rewrite (@create_new vd db F). reflexivity.
  - rewrite (@create_found vd db r F). reflexivity.
  - rewrite (@create_many vd db r r' l F). reflexivity.
Qed.

Lemma rate_keeps_unique vd db :
  In (vd_article vd) (articles db) ->
  ratings_unique (ratings db) /\ NoDup (map rating_pk (ratings db)) ->
  ratings_unique (ratings (snd (RatingSerializer_create vd db))) /\
  NoDup (map rating_pk (ratings (snd (RatingSerializer_create vd db)))).
Proof.
  intros I [U N].
  destruct (filter (rating_matches (vd_author vd) (slug (vd_article vd)) db)
                   (ratings db)) as [|r [|r' l]] eqn:F.
  - rewrite (@create_new vd db F). simpl. split.
    + apply ratings_unique_new; [exact U|]. simpl.
      apply filter_none. intros x Ix.
      destruct ((rating_author x =? vd_author vd)
                && (rating_article x =? article_pk (vd_article vd))) eqn:K;
        [|reflexivity].
      apply andb_true_iff in K. rewrite !Nat.eqb_eq in K. destruct K as [A P].
      pose proof (@rating_matches_of (vd_author vd) (vd_article vd) db x I A P) as Mx.
      pose proof (@filter_nil_none _ _ _ x F Ix) as Fx. congruence.
    + rewrite map_app. simpl. apply NoDup_app.
      * exact N.
      * constructor; [simpl; tauto|constructor].
      * intros k Ik [<-|[]]. apply in_map_iff in Ik.
        destruct Ik as (x & Ex & Ix).
        apply next_pk_above with (pk := rating_pk) in Ix. lia.
  - rewrite (@create_found vd db r F). cbn [snd set_ratings ratings].
    assert (In r (ratings db)) as Ir.
    { assert (In r [r]) as J by (simpl; tauto). rewrite <- F in J.
      apply filter_In in J. tauto. }
    destruct (@rating_save_split (ratings db) r (vd_score vd) N Ir) as (l1 & l2 & E1 & E2).
    rewrite E2. rewrite E1 in U, N. split.
    + intros author article. specialize (U author article).
      unfold ratings_of in *. rewrite filter_app, length_app in *.
      simpl in *.
      destruct ((rating_author r =? author) && (rating_article r =? article));
        simpl in *; lia.
    + rewrite map_app in *. simpl in *. exact N.
  - rewrite (@create_many vd db r r' l F). simpl. auto.
Qed.

Lemma rate_all_keeps_unique vds db :
  (forall vd, In vd vds -> In (vd_article vd) (articles db)) ->
  ratings_unique (ratings db) /\ NoDup (map rating_pk (ratings db)) ->
  ratings_unique (ratings (rate_all vds db)) /\
  NoDup (map rating_pk (ratings (rate_all vds db))).
Proof.
  revert db. induction vds as [|vd vds IH]; intros db A W; simpl; [exact W|].
  apply IH.
  - intros vd' I. rewrite rate_articles. apply A. simpl. tauto.
  - apply rate_keeps_unique; [apply A; simpl; tauto|exact W].
Qed.

(** Where the slug selects one article, the lookup on the slug is the
    lookup on the article. *)
Lemma rating_matches_ratings_of vd db :
  In (vd_article vd) (articles db) ->
  (forall a, In a (articles db) -> slug a = slug (vd_article vd) ->
             article_pk a = article_pk (vd_article vd)) ->
  filter (rating_matches (vd_author vd) (slug (vd_article vd)) db) (ratings db)
  = ratings_of (vd_author vd) (article_pk (vd_article vd)) (ratings db).
Proof.
  intros I S. unfold ratings_of. apply filter_ext. intros x.
  unfold rating_matches. f_equal.
  destruct (rating_article x =? article_pk (vd_article vd)) eqn:K.
  - apply existsb_exists. exists (vd_article vd). split; [exact I|].
    apply Nat.eqb_eq in K. rewrite K, Nat.eqb_refl, String.eqb_refl.
    reflexivity.
  - destruct (existsb _ (articles db)) eqn:X; [|reflexivity].
    apply existsb_exists in X. destruct X as (a & Ia & Xa).
    apply andb_true_iff in Xa. destruct Xa as [P Q].
    apply Nat.eqb_eq in P. apply String.eqb_eq in Q.
    apply Nat.eqb_neq in K. specialize (S a Ia Q). congruence.
Qed.

(** C10. At most one rating per (author, article): every sequence of calls
    of [RatingSerializer.create] on articles of the table keeps it so; and
    a call whose author has a rating on the article writes the new score
    into that row, in its place, and adds no row. *)
Theorem rating_unique_per_author_article :
  (forall db vds,
     (forall vd, In vd vds -> In (vd_article vd) (articles db)) ->
     ratings_unique (ratings db) ->
     NoDup (map rating_pk (ratings db)) ->
     ratings_unique (ratings (rate_all vds db))) /\
  (forall db vd r,
     In (vd_article vd) (articles db) ->
     (forall a, In a (articles db) -> slug a = slug (vd_article vd) ->
                article_pk a = article_pk (vd_article vd)) ->
     ratings_unique (ratings db) ->
     NoDup (map rating_pk (ratings db)) ->
     In r (ratings db) ->
     rating_author r = vd_author vd ->
     rating_article r = article_pk (vd_article vd) ->
     exists l1 l2,
       ratings db = l1 ++ r :: l2 /\
       RatingSerializer_create vd db
       = (Ok (set_score (vd_score vd) r),
          set_ratings (l1 ++ set_score (vd_score vd) r :: l2) db)).
Proof.
  split.
  - intros db vds A U N.
    apply (@rate_all_keeps_unique vds db A (conj U N)).
  - intros db vd r I S U N Ir A P.
    assert (filter (rating_matches (vd_author vd) (slug (vd_article vd)) db)
                   (ratings db) = [r]) as F.
    { apply filter_singleton.
      - exact Ir.
      - apply rating_matches_of; assumption.
      - rewrite rating_matches_ratings_of by assumption. apply U. }
    destruct (@rating_save_split (ratings db) r (vd_score vd) N Ir)
      as (l1 & l2 & E1 & E2).
    exists l1, l2. split; [exact E1|].
    rewrite (@create_found vd db r F). rewrite E2. reflexivity.
Qed.

Lemma rating_unique_per_author_article_witness :
  exists l1 l2,
    ratings db_rated = l1 ++ mkRating 1 11 1 400 :: l2 /\
    RatingSerializer_create (mkRatingData 11 believer 250) db_rated
    = (Ok (mkRating 1 11 1 250),
       set_ratings (l1 ++ mkRating 1 11 1 250 :: l2) db_rated).
Proof.
  apply (proj2 rating_unique_per_author_article db_rated
           (mkRatingData 11 believer 250) (mkRating 1 11 1 400)).
  - simpl. tauto.
  - simpl. intros a [<-|[]] _. reflexivity.
  - intros author article. unfold ratings_of. simpl.
    match goal with |- context [if ?c then _ else _] => destruct c end;
      simpl; lia.
  - simpl. constructor; [simpl; tauto|constructor].
  - simpl. tauto.
  - reflexivity.
  - reflexivity.
Defined.

(** * Further properties *)

(** ** The counts in the answer of a vote submission *)

Lemma votes_set_likedislikes ct oid rows db :
  votes ct oid (set_likedislikes rows db)
  = filter (fun r => content_type_eqb (content_type r) ct
                     && (object_id r =? oid)) rows.
Proof. reflexivity. Qed.

Lemma same_target_on_article oid u r :
  same_target ArticleType oid u r = true ->
  content_type_eqb (content_type r) ArticleType && (object_id r =? oid) = true.
Proof.
  unfold same_target. rewrite !andb_true_iff. tauto.
Qed.

Lemma filter_singleton_In {A : Type} (f : A -> bool) (l : list A) (x : A) :
  filter f l = [x] -> In x l /\ f x = true.
Proof.
  intros F. assert (In x (filter f l)) as I by (rewrite F; simpl; tauto).
  apply filter_In in I. exact I.
Qed.

Lemma likes_length_cons r qs :
  List.length (likes (r :: qs))
  = (if vote_eqb (vote r) LIKE then 1 else 0) + List.length (likes qs).
Proof. unfold likes. simpl. destruct (vote_eqb (vote r) LIKE); reflexivity. Qed.

Lemma dislikes_length_cons r qs :
  List.length (dislikes (r :: qs))
  = (if vote_eqb (vote r) DISLIKE then 1 else 0) + List.length (dislikes qs).
Proof.
  unfold dislikes. simpl. destruct (vote_eqb (vote r) DISLIKE); reflexivity.
Qed.

Lemma likes_length_app qs qs' :
  List.length (likes (qs ++ qs'))
  = List.length (likes qs) + List.length (likes qs').
Proof. unfold likes. rewrite filter_app, length_app. reflexivity. Qed.

Lemma dislikes_length_app qs qs' :
  List.length (dislikes (qs ++ qs'))
  = List.length (dislikes qs) + List.length (dislikes qs').
Proof. unfold dislikes. rewrite filter_app, length_app. reflexivity. Qed.

(** X1. The answer of a vote submission that succeeds has the status 201
    and carries the counts of the article after the write.  Against the
    counts before: a first vote puts the count of its kind one up; a vote
    of the other kind puts its own count one up and the other one down; a
    repeated vote puts the count of its kind one down. *)
Theorem post_response_counts self u s db resp db' :
  NoDup (map likedislike_pk (likedislikes db)) ->
  post self (request_of u) s db = (Ok resp, db') ->
  exists obj d,
    articles_by_slug s db = [obj] /\
    status resp = HTTP_201_CREATED /\ data resp = ArticleBody d /\
    data_likes d
    = List.length (likes (votes ArticleType (article_pk obj) db')) /\
    data_dislikes d
    = List.length (dislikes (votes ArticleType (article_pk obj) db')) /\
    let l := List.length (likes (votes ArticleType (article_pk obj) db)) in
    let k := List.length (dislikes (votes ArticleType (article_pk obj) db)) in
    match caller_vote u (article_pk obj) db, vote_type self with
    | None, LIKE => data_likes d = S l /\ data_dislikes d = k
    | None, DISLIKE => data_likes d = l /\ data_dislikes d = S k
    | Some DISLIKE, LIKE => data_likes d = S l /\ S (data_dislikes d) = k
    | Some LIKE, DISLIKE => S (data_likes d) = l /\ data_dislikes d = S k
    | Some LIKE, LIKE => S (data_likes d) = l /\ data_dislikes d = k
    | Some DISLIKE, DISLIKE => data_likes d = l /\ S (data_dislikes d) = k
    end.
Proof.
  intros N P. unfold request_of in P.
  destruct (post_cases self (mkRequest (AuthenticatedUser u)) s db)
    as [[e E]|(obj & u' & U & G & C)].
  { rewrite E in P. discriminate. }
  simpl in U. injection U as <-. simpl in C.
  unfold caller_vote, votes.
  destruct C as [[F E]|[(r & F & V & E)|(r & F & V & E)]];
    rewrite E in P; injection P as <- <-; exists obj; eexists;
    (split; [exact G|]); (split; [reflexivity|]); (split; [reflexivity|]);
    (split; [reflexivity|]); (split; [reflexivity|]); rewrite F; simpl;
    rewrite !votes_set_likedislikes.
  - rewrite filter_app. simpl. rewrite Nat.eqb_refl. simpl.
    rewrite likes_length_app, dislikes_length_app,
      likes_length_cons, dislikes_length_cons.
    destruct (vote_type self); simpl; lia.
  - destruct (filter_singleton_In _ _ F) as [I K].
    apply same_target_on_article in K.
    destruct (@map_by_pk_split _ likedislike_pk (set_vote (vote_type self))
                _ _ N I) as (l1 & l2 & E1 & E2).
    rewrite E2, E1, !filter_app. simpl.
    rewrite K. rewrite !likes_length_app, !dislikes_length_app,
      !likes_length_cons, !dislikes_length_cons. simpl.
    destruct (vote r), (vote_type self); simpl; try congruence; lia.
  - destruct (filter_singleton_In _ _ F) as [I K].
    apply same_target_on_article in K.
    destruct (@filter_by_pk_split _ likedislike_pk _ _ N I)
      as (l1 & l2 & E1 & E2).
    rewrite E2, E1, !filter_app. simpl. rewrite K.
    rewrite !likes_length_app, !dislikes_length_app,
      !likes_length_cons, !dislikes_length_cons.
    rewrite <- V. destruct (vote r); simpl; lia.
Qed.

Lemma post_response_counts_witness :
  exists obj d,
    articles_by_slug "believer" db_liked = [obj] /\
    data_likes d = 0 /\ data_dislikes d = 1.
Proof.
  edestruct (@post_response_counts article_dislike 11 "believer" db_liked)
    as (obj & d & G & _ & _ & L & K & _).
  - simpl. constructor; [simpl; tauto|constructor].
  - reflexivity.
  - exists obj, d. split; [exact G|].
    injection G as <-. split; [rewrite L|rewrite K]; reflexivity.
Defined.

(** ** Ledgers with more than one row of a user on a target *)

(** X2. A vote submission never adds a row where the user has one on the
    target: for every user and target the rows are at most as many as
    before, or one.  Where the user has two or more rows on the article,
    the lookup fails with [MultipleObjectsReturned] and nothing is
    written. *)
Theorem post_never_duplicates :
  (forall self request s db ct oid u,
     List.length
       (filter (same_target ct oid u)
               (likedislikes (snd (post self request s db))))
     <= Nat.max 1
          (List.length (filter (same_target ct oid u) (likedislikes db)))) /\
  (forall self u s db obj r r' l,
     articles_by_slug s db = [obj] ->
     filter (same_target ArticleType (article_pk obj) u) (likedislikes db)
     = r :: r' :: l ->
     post self (request_of u) s db
     = (Raise (MultipleObjectsReturned LikeDislikeModel), db)).
Proof.
  split.
  - intros self request s db ct oid u.
    destruct (post_cases self request s db)
      as [[e E]|(obj & u' & _ & _ & C)].
    { rewrite E. cbn [snd]. lia. }
    simpl in C. destruct C as [[F E]|[(r & F & V & E)|(r & F & V & E)]];
      rewrite E; cbn [snd likedislikes set_likedislikes].
    + rewrite filter_app, length_app. cbn [filter].
      destruct (same_target ct oid u (new_vote obj u' (vote_type self) db))
        eqn:K; cbn [List.length app]; [|lia].
      apply same_target_true in K. simpl in K. destruct K as (<- & <- & <-).
      rewrite F. cbn [List.length]. lia.
    + rewrite filter_map_key, length_map; [lia|].
      intros x. destruct (likedislike_pk x =? likedislike_pk r); reflexivity.
    + pose proof (filter_filter_length (same_target ct oid u)
                    (fun x => negb (likedislike_pk x =? likedislike_pk r))
                    (likedislikes db)). lia.
  - intros self u s db obj r r' l G F.
    unfold post, bind, Article_objects_get, try_except. rewrite G. simpl.
    rewrite F. reflexivity.
Qed.

Lemma post_never_duplicates_witness :
  let db :=
    mkDB [10; 11] [believer] []
         [mkLikeDislike 1 ArticleType 1 11 LIKE;
          mkLikeDislike 2 ArticleType 1 11 DISLIKE] [] [] in
  post article_like (request_of 11) "believer" db
  = (Raise (MultipleObjectsReturned LikeDislikeModel), db).
Proof.
  intros db.
  apply (proj2 post_never_duplicates article_like 11 "believer"%string db
           believer
           (mkLikeDislike 1 ArticleType 1 11 LIKE)
           (mkLikeDislike 2 ArticleType 1 11 DISLIKE) []);
    reflexivity.
Defined.

(** ** Sequences of votes of one user on one article *)

Lemma submit_articles s db : articles (submit s db) = articles db.
Proof.
  unfold submit.
  destruct (post_cases (sub_view s) (sub_request s) (sub_slug s) db)
    as [[e E]|(obj & u & _ & _ & C)].
  - rewrite E. reflexivity.
  - simpl in C. destruct C as [[F E]|[(r & F & V & E)|(r & F & V & E)]];
      rewrite E; reflexivity.
Qed.

Lemma filter_comm {A : Type} (f g : A -> bool) (l : list A) :
  filter f (filter g l) = filter g (filter f l).
Proof.
  induction l as [|a l IH]; simpl; [reflexivity|].
  destruct (f a) eqn:F, (g a) eqn:G; simpl; rewrite ?F, ?G, IH; reflexivity.
Qed.

(** One submission acts on the vote of the caller as [toggle]. *)
Lemma submit_caller_vote v u s db obj :
  articles_by_slug s db = [obj] ->
  ledger_unique (likedislikes db) ->
  caller_vote u (article_pk obj)
    (submit (mkSubmission (mkChoiceView v) (request_of u) s) db)
  = toggle v (caller_vote u (article_pk obj) db).
Proof.
  intros G U. unfold submit, caller_vote, request_of.
  cbn [sub_view sub_request sub_slug].
  destruct (filter (same_target ArticleType (article_pk obj) u)
                   (likedislikes db)) as [|r [|r' l]] eqn:F.
  - rewrite (@post_create (mkChoiceView v) u s db obj G F). simpl.
    change (likedislikes db ++ [_])
      with (likedislikes db ++ [new_vote obj u v db]).
    rewrite (@filter_key_new obj u v db F). reflexivity.
  - simpl. destruct (vote_is_not (vote r) v) eqn:V.
    + apply vote_is_not_true in V.
      rewrite (@post_switch (mkChoiceView v) u s db obj r G F V). simpl.
      rewrite filter_map_key.
      * rewrite F. simpl. rewrite Nat.eqb_refl. reflexivity.
      * intros x. destruct (likedislike_pk x =? likedislike_pk r);
          reflexivity.
    + apply vote_is_not_false in V.
      rewrite (@post_remove (mkChoiceView v) u s db obj r G F V). simpl.
      rewrite filter_comm, F. simpl. rewrite Nat.eqb_refl. reflexivity.
  - specialize (U ArticleType (article_pk obj) u). rewrite F in U.
    simpl in U. lia.
Qed.

(** X3. The votes of one user on one article compose: after the user has
    submitted the votes [vs] in a row, the vote the user has on the article
    is the fold of [toggle] over [vs], from the vote the user had. *)
Theorem votes_compose_by_toggle u s db obj vs :
  articles_by_slug s db = [obj] ->
  ledger_unique (likedislikes db) ->
  caller_vote u (article_pk obj) (submit_all (submissions u s vs) db)
  = fold_left (fun st v => toggle v st) vs
      (caller_vote u (article_pk obj) db).
Proof.
  revert db. induction vs as [|v vs IH]; intros db G U; simpl;
    [reflexivity|].
  rewrite IH.
  - rewrite (@submit_caller_vote v u s db obj G U). reflexivity.
  - unfold articles_by_slug in *. rewrite submit_articles. exact G.
  - apply submit_ledger_unique. exact U.
Qed.

Lemma votes_compose_by_toggle_witness :
  caller_vote 11 1
    (submit_all (submissions 11 "believer" [LIKE; DISLIKE; DISLIKE; LIKE])
                db_fresh)
  = Some LIKE.
Proof.
  apply (@votes_compose_by_toggle 11 "believer" db_fresh believer
           [LIKE; DISLIKE; DISLIKE; LIKE]).
  - reflexivity.
  - intros ct oid u. simpl. lia.
Defined.

(** ** More on favorites *)

(** What a counted favorite and a counted unfavorite make of the
    instance. *)
Lemma favorite_call_effect c db :
  snd (favorite_call c db) = db \/
  exists u article article' favs',
    In article (articles db) /\
    snd (favorite_call c db)
    = set_articles
        (map (fun a => if article_pk a =? article_pk article
                       then article' else a) (articles db))
        (set_favorites favs' db) /\
    ((author_id article <> u /\
      existsb (favorite_eqb (u, article_pk article)) (favorites db) = false /\
      article' = set_favorites_count (favorites_count article + 1)
                                     (set_favorited true article) /\
      favs' = favorites db ++ [(u, article_pk article)])
     \/
     (existsb (favorite_eqb (u, article_pk article)) (favorites db) = true /\
      article' = (if (favorites_count article >? 0)%Z
                  then
                    if (favorites_count article - 1 =? 0)%Z
                    then set_favorited false
                           (set_favorites_count (favorites_count article - 1)
                                                article)
                    else set_favorites_count (favorites_count article - 1)
                                             article
                  else article) /\
      favs' = filter (fun p => negb (favorite_eqb (u, article_pk article) p))
                     (favorites db))).
Proof.
  destruct c as [[[|u]] s|[[|u]] s]; try (left; reflexivity).
  - change (favorite_call (Favor (mkRequest (AuthenticatedUser u)) s) db)
      with (FavoriteArticle_create (request_of u) s db).
    destruct (singleton_or_not (articles_by_slug s db)) as [[article G]|G].
    2:{ destruct (@create_unfound (request_of u) s db G) as [e E].
        rewrite E. left. reflexivity. }
    destruct (Nat.eq_dec (author_id article) u) as [A|A].
    { destruct (@create_rejected u s db article G (or_introl A)) as [msg E].
      rewrite E. left. reflexivity. }
    destruct (existsb (favorite_eqb (u, article_pk article)) (favorites db))
      eqn:H.
    { destruct (@create_rejected u s db article G (or_intror H)) as [msg E].
      rewrite E. left. reflexivity. }
    right. rewrite (@create_accepted u s db article G A H).
    apply articles_by_slug_In in G. destruct G as [G _].
    exists u, article. do 2 eexists. split; [exact G|].
    split; [reflexivity|].
    left. repeat split; assumption || reflexivity.
  - change (favorite_call (Unfavor (mkRequest (AuthenticatedUser u)) s) db)
      with (UnFavoriteArticle_destroy (request_of u) s db).
    destruct (singleton_or_not (articles_by_slug s db)) as [[article G]|G].
    2:{ destruct (@destroy_unfound (request_of u) s db G) as [e E].
        rewrite E. left. reflexivity. }
    destruct (existsb (favorite_eqb (u, article_pk article)) (favorites db))
      eqn:H.
    2:{ destruct (@destroy_rejected u s db article G H) as [msg E].
        rewrite E. left. reflexivity. }
    right. rewrite (@destroy_accepted u s db article G H).
    apply articles_by_slug_In in G. destruct G as [G _].
    exists u, article. do 2 eexists. split; [exact G|].
    split; [reflexivity|].
    right. repeat split; assumption || reflexivity.
Qed.

Lemma counter_sound_favored article :
  counter_sound article ->
  counter_sound (set_favorites_count (favorites_count article + 1)
                                     (set_favorited true article)).
Proof.
  intros [P F]. unfold counter_sound. simpl. split; [lia|].
  split; [lia|reflexivity].
Qed.

Lemma counter_sound_unfavored article :
  counter_sound article ->
  counter_sound
    (if (favorites_count article >? 0)%Z
     then
       if (favorites_count article - 1 =? 0)%Z
       then set_favorited false
              (set_favorites_count (favorites_count article - 1) article)
       else set_favorites_count (favorites_count article - 1) article
     else article).
Proof.
  intros [P F]. destruct (favorites_count article >? 0)%Z eqn:G;
    [|split; assumption].
  apply Z.gtb_lt in G.
  destruct (favorites_count article - 1 =? 0)%Z eqn:Z0; unfold counter_sound;
    simpl.
  - apply Z.eqb_eq in Z0. split; [lia|]. split; [discriminate|lia].
  - apply Z.eqb_neq in Z0. split; [lia|]. split; [lia|].
    intros _. apply F. lia.
Qed.

Lemma favorite_call_counter_sound c db :
  (forall a, In a (articles db) -> counter_sound a) ->
  forall a, In a (articles (snd (favorite_call c db))) -> counter_sound a.
Proof.
  intros H.
  destruct (favorite_call_effect c db)
    as [E|(u & article & article' & favs' & I & E & C)]; rewrite E;
    [exact H|].
  simpl. intros a Ia. apply in_map_iff in Ia. destruct Ia as (x & Ex & Ix).
  destruct (article_pk x =? article_pk article); subst a;
    [|apply H; exact Ix].
  destruct C as [(_ & _ & -> & _)|(_ & -> & _)].
  - apply counter_sound_favored. apply H. exact I.
  - apply counter_sound_unfavored. apply H. exact I.
Qed.

(** X4. The counters never go below zero, and the flag [favorited] of an
    article tells whether its counter is positive: where this is so of
    every article, it is so after every sequence of favorite and unfavorite
    calls. *)
Theorem favorites_counter_sound db cs :
  (forall a, In a (articles db) -> counter_sound a) ->
  forall a, In a (articles (favorite_calls cs db)) -> counter_sound a.
Proof.
  revert db. induction cs as [|c cs IH]; intros db H; simpl; [exact H|].
  apply IH. apply favorite_call_counter_sound. exact H.
Qed.

Lemma favorites_counter_sound_witness :
  counter_sound (mkArticle 1 "believer" 10 true 1).
Proof.
  apply (@favorites_counter_sound db_fresh
           [Favor (request_of 11) "believer";
            Favor (request_of 12) "believer";
            Unfavor (request_of 11) "believer"]).
  - intros a [<-|[]]. split; simpl; [lia|]. split; [discriminate|lia].
  - simpl. tauto.
Defined.

Lemma favorite_call_no_own c db :
  no_own_favorite db -> no_own_favorite (snd (favorite_call c db)).
Proof.
  intros H.
  destruct (favorite_call_effect c db)
    as [E|(u & article & article' & favs' & I & E & C)]; rewrite E;
    [exact H|].
  intros u0 a F Ia. simpl in F, Ia.
  apply in_map_iff in Ia. destruct Ia as (x & Ex & Ix).
  assert (article_pk article' = article_pk article
          /\ author_id article' = author_id article) as [Pk Au].
  { destruct C as [(_ & _ & -> & _)|(_ & -> & _)]; [split; reflexivity|].
    destruct (favorites_count article >? 0)%Z; [|split; reflexivity].
    destruct (favorites_count article - 1 =? 0)%Z; split; reflexivity. }
  assert (In (u0, article_pk a) (favorites db)
          \/ (u0 = u /\ article_pk a = article_pk article
              /\ author_id article <> u)) as F'.
  { destruct C as [(A & _ & _ & ->)|(_ & _ & ->)].
    - apply in_app_or in F. destruct F as [F|[F|[]]]; [left; exact F|].
      injection F as <- P. right. auto.
    - left. apply filter_In in F. tauto. }
  destruct (article_pk x =? article_pk article) eqn:K; subst a.
  - rewrite Au. rewrite Pk in F'. destruct F' as [F'|(-> & _ & A)];
      [|exact A].
    apply (H u0 article F' I).
  - apply Nat.eqb_neq in K. destruct F' as [F'|(_ & P & _)];
      [|congruence].
    apply (H u0 x F' Ix).
Qed.

(** X5. Nobody comes to have favorited an article of their own: where no
    pair of the relation joins a user with an article the user wrote, no
    sequence of favorite and unfavorite calls makes one. *)
Theorem favorites_never_own db cs :
  no_own_favorite db -> no_own_favorite (favorite_calls cs db).
Proof.
  revert db. induction cs as [|c cs IH]; intros db H; simpl; [exact H|].
  apply IH. apply favorite_call_no_own. exact H.
Qed.

Lemma favorites_never_own_witness :
  no_own_favorite
    (favorite_calls
       [Favor (request_of 10) "believer"; Favor (request_of 11) "believer"]
       db_fresh).
Proof.
  apply (@favorites_never_own db_fresh).
  intros u a [].
Defined.

Lemma pk_split_filter {A : Type} (f : A -> bool) (l1 l2 : list A) (x y : A) :
  filter f (l1 ++ x :: l2) = [x] -> f y = true ->
  filter f (l1 ++ y :: l2) = [y].
Proof.
  intros F Y.
  assert (f x = true) as X.
  { apply (@filter_singleton_In _ f (l1 ++ x :: l2) x F). }
  rewrite filter_app in *. simpl in *. rewrite X in F. rewrite Y.
  destruct (filter f l1) as [|a t]; simpl in *.
  - injection F as F. rewrite F. reflexivity.
  - injection F as _ F. destruct t; discriminate.
Qed.

Lemma split_at_pk_unique {A : Type} (pk : A -> nat) (l1 l2 k1 k2 : list A)
  (x : A) :
  NoDup (map pk (l1 ++ x :: l2)) ->
  l1 ++ x :: l2 = k1 ++ x :: k2 -> k1 = l1 /\ k2 = l2.
Proof.
  revert k1. induction l1 as [|a l1 IH]; intros [|b k1] N Q; simpl in *.
  - injection Q as Q. auto.
  - injection Q as Hb Hl. exfalso. apply NoDup_cons_iff in N.
    destruct N as [Nx _]. apply Nx. rewrite Hl, map_app.
    apply in_or_app. right. simpl. left. reflexivity.
  - injection Q as Ha Hl. exfalso. apply NoDup_cons_iff in N.
    destruct N as [Nx _]. apply Nx. rewrite Ha, map_app.
    apply in_or_app. right. simpl. left. reflexivity.
  - injection Q as Ha Hl. apply NoDup_cons_iff in N. destruct N as [_ N].
    destruct (IH k1 N Hl) as [E1 E2]. split; congruence.
Qed.

Lemma article_save_split rows article article' :
  NoDup (map article_pk rows) -> In article rows ->
  exists l1 l2,
    rows = l1 ++ article :: l2 /\
    map (fun a => if article_pk a =? article_pk article then article' else a)
        rows
    = l1 ++ article' :: l2.
Proof.
  intros N I.
  apply (@map_by_pk_split _ article_pk (fun _ => article') rows article N I).
Qed.

(** X6. A favorite that succeeds, followed by the unfavorite of the same
    user, gives back the database: the pair is gone, the counter and the
    flag are as before.  (The article has a sound counter, and the keys of
    the articles are distinct.) *)
Theorem favorite_then_unfavorite u s db article :
  articles_by_slug s db = [article] ->
  NoDup (map article_pk (articles db)) ->
  counter_sound article ->
  author_id article <> u ->
  existsb (favorite_eqb (u, article_pk article)) (favorites db) = false ->
  exists resp1 db1 resp2,
    FavoriteArticle_create (request_of u) s db = (Ok resp1, db1) /\
    status resp1 = HTTP_201_CREATED /\
    UnFavoriteArticle_destroy (request_of u) s db1 = (Ok resp2, db) /\
    status resp2 = HTTP_204_NO_CONTENT.
Proof.
  intros G N [P F] A H.
  pose proof (@create_accepted u s db article G A H) as E1. cbv zeta in E1.
  set (article1 := set_favorites_count (favorites_count article + 1)
                     (set_favorited true article)) in *.
  destruct (@articles_by_slug_In _ _ _ G) as [I _].
  destruct (@article_save_split (articles db) article article1 N I)
    as (l1 & l2 & R & R1).
  rewrite R1 in E1.
  set (db1 := set_articles (l1 ++ article1 :: l2)
                (set_favorites (favorites db ++ [(u, article_pk article)])
                               db)) in *.
  assert (articles_by_slug s db1 = [article1]) as G1.
  { unfold articles_by_slug in *. simpl. rewrite R in G.
    apply pk_split_filter with (x := article); [exact G|].
    destruct (@filter_singleton_In _ _ _ _ G) as [_ S]. exact S. }
  assert (existsb (favorite_eqb (u, article_pk article1)) (favorites db1)
          = true) as H1.
  { apply has_favorited_In. simpl. apply in_or_app. right. simpl. tauto. }
  pose proof (@destroy_accepted u s db1 article1 G1 H1) as E2.
  cbv zeta in E2.
  assert ((favorites_count article1 >? 0)%Z = true) as C1
    by (apply Z.gtb_lt; simpl; lia).
  rewrite C1 in E2.
  assert ((if (favorites_count article1 - 1 =? 0)%Z
           then set_favorited false
                  (set_favorites_count (favorites_count article1 - 1)
                                       article1)
           else set_favorites_count (favorites_count article1 - 1) article1)
          = article) as Back.
  { unfold article1. simpl.
    replace (favorites_count article + 1 - 1)%Z with (favorites_count article)
      by lia.
    destruct article as [pk sl au fl n]. simpl in *.
    unfold set_favorited, set_favorites_count. simpl.
    destruct (n =? 0)%Z eqn:Z0.
    - apply Z.eqb_eq in Z0. subst n. destruct fl; [|reflexivity].
      exfalso. assert (0 < 0)%Z by (apply F; reflexivity). lia.
    - apply Z.eqb_neq in Z0. destruct fl; [reflexivity|].
      exfalso. assert (false = true) by (apply F; lia). discriminate. }
  rewrite Back in E2.
  assert (filter (fun p => negb (favorite_eqb (u, article_pk article1) p))
                 (favorites db1) = favorites db) as Fv.
  { simpl. rewrite filter_app. simpl.
    assert (favorite_eqb (u, article_pk article) (u, article_pk article)
            = true) as T by (apply favorite_eqb_true; reflexivity).
    rewrite T. simpl. rewrite app_nil_r. apply filter_all.
    intros p Ip. destruct (favorite_eqb (u, article_pk article) p) eqn:Q;
      [|reflexivity].
    apply favorite_eqb_true in Q. subst p.
    apply has_favorited_In in Ip. congruence. }
  rewrite Fv in E2.
  assert (map (fun a => if article_pk a =? article_pk article1
                        then article else a) (articles db1) = articles db)
    as Ar.
  { change (articles db1) with (l1 ++ article1 :: l2). rewrite R.
    assert (NoDup (map article_pk (l1 ++ article1 :: l2))) as N1.
    { rewrite R in N. rewrite map_app in *. simpl in *. exact N. }
    assert (In article1 (l1 ++ article1 :: l2)) as I1
      by (apply in_or_app; simpl; tauto).
    destruct (@article_save_split _ article1 article N1 I1)
      as (k1 & k2 & Q & Q1).
    rewrite Q1.
    destruct (@split_at_pk_unique _ article_pk l1 l2 k1 k2 article1 N1 Q)
      as [-> ->].
    reflexivity. }
  rewrite Ar in E2.
  assert (set_articles (articles db) (set_favorites (favorites db) db1) = db)
    as Db by (destruct db; reflexivity).
  rewrite Db in E2.
  do 3 eexists. split; [exact E1|]. split; [reflexivity|].
  split; [exact E2|reflexivity].
Qed.

Lemma favorite_then_unfavorite_witness :
  exists resp1 db1 resp2,
    FavoriteArticle_create (request_of 11) "believer" db_fresh
    = (Ok resp1, db1) /\
    status resp1 = HTTP_201_CREATED /\
    UnFavoriteArticle_destroy (request_of 11) "believer" db1
    = (Ok resp2, db_fresh) /\
    status resp2 = HTTP_204_NO_CONTENT.
Proof.
  apply (@favorite_then_unfavorite 11 "believer" db_fresh believer).
  - reflexivity.
  - simpl. constructor; [simpl; tauto|constructor].
  - split; simpl; [lia|]. split; [discriminate|lia].
  - discriminate.
  - reflexivity.
Defined.

(** X7. The two favorite views call nothing of the handler for a caller
    who is not authenticated, answer a slug that selects no article with
    [Http404], and let [MultipleObjectsReturned] through for a slug of two
    or more articles; in each case nothing is written. *)
Theorem favorite_views_errors :
  (forall s db,
     FavoriteArticle_dispatch (mkRequest AnonymousUser) s db
     = (Raise NotAuthenticated, db) /\
     UnFavoriteArticle_dispatch (mkRequest AnonymousUser) s db
     = (Raise NotAuthenticated, db)) /\
  (forall u s db,
     articles_by_slug s db = [] ->
     FavoriteArticle_dispatch (request_of u) s db = (Raise Http404, db) /\
     UnFavoriteArticle_dispatch (request_of u) s db = (Raise Http404, db)) /\
  (forall u s db a b l,
     articles_by_slug s db = a :: b :: l ->
     FavoriteArticle_dispatch (request_of u) s db
     = (Raise (MultipleObjectsReturned ArticleModel), db) /\
     UnFavoriteArticle_dispatch (request_of u) s db
     = (Raise (MultipleObjectsReturned ArticleModel), db)).
Proof.
  split; [intros s db; split; reflexivity|].
  split.
  - intros u s db G.
    unfold FavoriteArticle_dispatch, UnFavoriteArticle_dispatch, dispatch,
      check_permissions, FavoriteArticle_create, UnFavoriteArticle_destroy,
      bind, get_object. simpl. rewrite G. split; reflexivity.
  - intros u s db a b l G.
    unfold FavoriteArticle_dispatch, UnFavoriteArticle_dispatch, dispatch,
      check_permissions, FavoriteArticle_create, UnFavoriteArticle_destroy,
      bind, get_object. simpl. rewrite G. split; reflexivity.
Qed.

Lemma favorite_views_errors_witness :
  FavoriteArticle_dispatch (request_of 11) "no-such-article" db_fresh
  = (Raise Http404, db_fresh) /\
  UnFavoriteArticle_dispatch (request_of 11) "no-such-article" db_fresh
  = (Raise Http404, db_fresh).
Proof.
  apply (proj1 (proj2 favorite_views_errors) 11 "no-such-article"%string
           db_fresh).
  reflexivity.
Defined.

(** ** More on ratings *)

(** X8. Rating again with the same data changes nothing: the second call
    of [RatingSerializer.create] returns what the first returned and leaves
    the database as the first left it. *)
Theorem rating_create_idempotent vd db :
  In (vd_article vd) (articles db) ->
  NoDup (map rating_pk (ratings db)) ->
  RatingSerializer_create vd (snd (RatingSerializer_create vd db))
  = RatingSerializer_create vd db.
Proof.
  intros I N.
  destruct (filter (rating_matches (vd_author vd) (slug (vd_article vd)) db)
                   (ratings db)) as [|r [|r' l]] eqn:F.
  - pose proof (@create_new vd db F) as E. cbv zeta in E. rewrite E.
    cbn [snd].
    set (rating := mkRating (next_pk rating_pk (ratings db)) (vd_author vd)
                     (article_pk (vd_article vd)) (vd_score vd)) in *.
    set (db1 := set_ratings (ratings db ++ [rating]) db).
    assert (filter (rating_matches (vd_author vd) (slug (vd_article vd)) db1)
                   (ratings db1) = [rating]) as F1.
    { change (ratings db1) with (ratings db ++ [rating]).
      change (rating_matches (vd_author vd) (slug (vd_article vd)) db1)
        with (rating_matches (vd_author vd) (slug (vd_article vd)) db).
      rewrite filter_app, F. simpl.
      rewrite (@rating_matches_of (vd_author vd) (vd_article vd) db rating I
                 eq_refl eq_refl). reflexivity. }
    rewrite (@create_found vd db1 rating F1).
    change (set_score (vd_score vd) rating) with rating.
    change (ratings db1) with (ratings db ++ [rating]).
    rewrite map_next_pk with (g := fun _ : Rating => rating)
      by reflexivity.
    reflexivity.
  - pose proof (@create_found vd db r F) as E. rewrite E. cbn [snd].
    destruct (@filter_singleton_In _ _ _ _ F) as [Ir Mr].
    destruct (@rating_save_split (ratings db) r (vd_score vd) N Ir)
      as (l1 & l2 & E1 & E2).
    rewrite E2.
    set (r1 := set_score (vd_score vd) r) in *.
    set (db1 := set_ratings (l1 ++ r1 :: l2) db).
    assert (filter (rating_matches (vd_author vd) (slug (vd_article vd)) db1)
                   (ratings db1) = [r1]) as F1.
    { change (ratings db1) with (l1 ++ r1 :: l2).
      change (rating_matches (vd_author vd) (slug (vd_article vd)) db1)
        with (rating_matches (vd_author vd) (slug (vd_article vd)) db).
      apply pk_split_filter with (x := r); [rewrite <- E1; exact F|].
      exact Mr. }
    rewrite (@create_found vd db1 r1 F1).
    change (set_score (vd_score vd) r1) with r1.
    assert (NoDup (map rating_pk (ratings db1))) as N1.
    { change (ratings db1) with (l1 ++ r1 :: l2).
      rewrite E1 in N. rewrite map_app in *. exact N. }
    assert (In r1 (ratings db1)) as I1.
    { change (ratings db1) with (l1 ++ r1 :: l2). apply in_or_app.
      simpl. tauto. }
    destruct (@map_by_pk_split _ rating_pk (fun _ => r1) _ _ N1 I1)
      as (k1 & k2 & Q1 & Q2).
    rewrite Q2, <- Q1. reflexivity.
  - pose proof (@create_many vd db r r' l F) as E. rewrite E. cbn [snd].
    exact E.
Qed.

Lemma rating_create_idempotent_witness :
  let vd := mkRatingData 12 believer 350 in
  RatingSerializer_create vd (snd (RatingSerializer_create vd db_rated))
  = RatingSerializer_create vd db_rated.
Proof.
  intros vd.
  apply (@rating_create_idempotent vd db_rated).
  - simpl. tauto.
  - simpl. constructor; [simpl; tauto|constructor].
Defined.

Lemma number_in_range q :
  number_gt q (number_of 5) || number_lt q (number_of 0) = false <->
  QArith_base.Qle (number_of 0) q /\ QArith_base.Qle q (number_of 5).
Proof.
  unfold number_gt, number_lt. rewrite orb_false_iff, !negb_false_iff.
  rewrite !QArith_base.Qle_bool_iff. tauto.
Qed.

(** X9. [update_data] checks in this order: the slug must select an
    article, the article must not be the caller's, the score (0 when the
    request has none) must lie in [0, 5].  It passes exactly when all three
    hold, and then returns the request with the key of the article and the
    key of the caller set and the score as it came, missing if it was
    missing. *)
Theorem update_data_checks data s u db :
  (forall data',
     update_data data s u db = Valid data' <->
     exists article,
       articles_by_slug s db = [article] /\
       author_id article <> u /\
       QArith_base.Qle (number_of 0)
         (match rq_score data with Some q => q | None => number_of 0 end) /\
       QArith_base.Qle
         (match rq_score data with Some q => q | None => number_of 0 end)
         (number_of 5) /\
       data' = mkRatingRequest (rq_score data) (Some (article_pk article))
                               (Some u)) /\
  (articles_by_slug s db = [] ->
   update_data data s u db
   = Invalid (ValidationError "Article is not found.")) /\
  (forall article,
     articles_by_slug s db = [article] -> author_id article = u ->
     update_data data s u db
     = Invalid (ValidationError
                  "Please rate an article that does not belong to you")).
Proof.
  unfold update_data. split; [|split].
  - intros data'. split.
    + destruct (articles_by_slug s db) as [|article [|b l]]; simpl;
        try discriminate.
      destruct (author_id article =? u) eqn:A; [discriminate|].
      destruct (number_gt _ _ || number_lt _ _) eqn:R; [discriminate|].
      intros [= <-]. apply number_in_range in R. apply Nat.eqb_neq in A.
      exists article. tauto.
    + intros (article & G & A & L & U & ->). rewrite G. simpl.
      apply Nat.eqb_neq in A. rewrite A.
      assert (number_gt
                (match rq_score data with
                 | Some q => q | None => number_of 0 end) (number_of 5)
              || number_lt
                   (match rq_score data with
                    | Some q => q | None => number_of 0 end) (number_of 0)
              = false) as R by (apply number_in_range; tauto).
      rewrite R. reflexivity.
  - intros G. rewrite G. reflexivity.
  - intros article G A. rewrite G. simpl.
    apply Nat.eqb_eq in A. rewrite A. reflexivity.
Qed.

(** ** Bookmarks *)

Lemma bookmark_key_true u s b :
  bookmark_key u s b = true <-> bookmark_slug b = s /\ bookmark_user b = u.
Proof.
  unfold bookmark_key. rewrite andb_true_iff, String.eqb_eq, Nat.eqb_eq.
  tauto.
Qed.

Lemma get_object_or_404_cases {R : Type} (qs : list R) :
  (exists r, qs = [r] /\ get_object_or_404 ArticleModel qs = Ok r) \/
  (exists e, get_object_or_404 ArticleModel qs = Raise e).
Proof.
  destruct qs as [|a [|b l]]; simpl.
  - right. eexists. reflexivity.
  - left. exists a. split; reflexivity.
  - right. eexists. reflexivity.
Qed.

(** The ways a call of [BookmarkView.create] ends. *)
Lemma BookmarkView_create_cases u s st :
  (exists out, BookmarkView_create u s st = (out, st)) \/
  (exists article,
     articles_by_slug s (site_db st) = [article] /\
     bookmarks_of u (slug article) st = [] /\
     BookmarkView_create u s st
     = (Ok (mkBookmarkResponse (BookmarkData (slug article))
                               HTTP_201_CREATED),
        set_bookmarks
          (bookmarks st ++
             [mkBookmark (next_pk bookmark_pk (bookmarks st)) u
                         (slug article)]) st)).
Proof.
  unfold BookmarkView_create.
  destruct (get_object_or_404_cases (articles_by_slug s (site_db st)))
    as [(article & G & E)|[e E]]; rewrite E; [|eauto].
  destruct (bookmarks_of u (slug article) st) eqn:B; [|eauto].
  right. exists article. auto.
Qed.

Lemma UnBookmarkView_destroy_cases u s st :
  (bookmarks_of u s st = [] /\
   UnBookmarkView_destroy u s st
   = (Ok (mkBookmarkResponse (BookmarkMessage "bookmark not found")
                             HTTP_404_NOT_FOUND), st)) \/
  (bookmarks_of u s st <> [] /\
   UnBookmarkView_destroy u s st
   = (Ok (mkBookmarkResponse (BookmarkMessage "deleted")
                             HTTP_204_NO_CONTENT),
      set_bookmarks
        (filter (fun b => negb (bookmark_key u s b)) (bookmarks st)) st)).
Proof.
  unfold UnBookmarkView_destroy.
  destruct (bookmarks_of u s st) eqn:B; [left; auto|right].
  split; [discriminate|reflexivity].
Qed.

Lemma bookmark_call_unique c st :
  bookmarks_unique st -> bookmarks_unique (bookmark_call c st).
Proof.
  intros U. destruct c as [[[|u]] s|[[|u]] s]; try exact U;
    unfold bookmark_call, authenticated; cbn [request_user].
  - destruct (BookmarkView_create_cases u s st)
      as [[out E]|(article & G & B & E)]; rewrite E; [exact U|].
    intros u' s'. specialize (U u' s'). unfold bookmarks_of in *.
    cbn [snd bookmarks set_bookmarks]. rewrite filter_app, length_app.
    change (fun b => String.eqb (bookmark_slug b) s' && (bookmark_user b =? u'))
      with (bookmark_key u' s') in *.
    cbn [filter].
    destruct (bookmark_key u' s' _) eqn:K; cbn [List.length]; [|lia].
    apply bookmark_key_true in K. cbn in K. destruct K as [<- <-].
    change (fun b => String.eqb (bookmark_slug b) (slug article)
                     && (bookmark_user b =? u))
      with (bookmark_key u (slug article)) in B.
    rewrite B. cbn [List.length]. lia.
  - destruct (UnBookmarkView_destroy_cases u s st) as [[_ E]|[_ E]];
      rewrite E; [exact U|].
    intros u' s'. unfold bookmarks_of. cbn [snd bookmarks set_bookmarks].
    pose proof (filter_filter_length
                  (fun b => String.eqb (bookmark_slug b) s'
                            && (bookmark_user b =? u'))
                  (fun b => negb (bookmark_key u s b)) (bookmarks st)) as L.
    specialize (U u' s'). unfold bookmarks_of in U. lia.
Qed.

(** X10. At most one bookmark per user and article: where it is so, it is
    so after every sequence of bookmark and unbookmark calls, by any
    callers on any slugs. *)
Theorem bookmarks_stay_unique st cs :
  bookmarks_unique st -> bookmarks_unique (bookmark_calls cs st).
Proof.
  revert st. induction cs as [|c cs IH]; intros st U; simpl; [exact U|].
  apply IH. apply bookmark_call_unique. exact U.
Qed.

Lemma bookmarks_stay_unique_witness :
  bookmarks_unique
    (bookmark_calls
       [DoBookmark (request_of 11) "believer";
        DoBookmark (request_of 11) "believer";
        DoBookmark (request_of 12) "believer";
        UnBookmark (request_of 11) "believer"] site_fresh).
Proof.
  apply (@bookmarks_stay_unique site_fresh).
  intros u s. simpl. lia.
Defined.

Lemma set_bookmarks_same st : set_bookmarks (bookmarks st) st = st.
Proof. destruct st; reflexivity. Qed.

(** X11. A bookmark that succeeds, followed by the unbookmark of the same
    user on the same slug, gives back the tables as they were. *)
Theorem bookmark_then_unbookmark u s st article :
  articles_by_slug s (site_db st) = [article] ->
  bookmarks_of u s st = [] ->
  exists st1,
    BookmarkView_create u s st
    = (Ok (mkBookmarkResponse (BookmarkData s) HTTP_201_CREATED), st1) /\
    UnBookmarkView_destroy u s st1
    = (Ok (mkBookmarkResponse (BookmarkMessage "deleted")
                              HTTP_204_NO_CONTENT), st).
Proof.
  intros G B.
  destruct (@articles_by_slug_In _ _ _ G) as [_ S].
  unfold BookmarkView_create. rewrite G. cbn [get_object_or_404 queryset_get].
  rewrite S, B. eexists. split; [reflexivity|].
  unfold UnBookmarkView_destroy, bookmarks_of in *.
  cbn [bookmarks set_bookmarks].
  rewrite !filter_app, B. cbn [filter bookmark_slug bookmark_user].
  rewrite String.eqb_refl, Nat.eqb_refl. cbn [andb negb app].
  rewrite app_nil_r.
  rewrite filter_all.
  - destruct st; reflexivity.
  - intros b Ib. rewrite (@filter_nil_none _ _ _ b B Ib). reflexivity.
Qed.

Lemma bookmark_then_unbookmark_witness :
  exists st1,
    BookmarkView_create 11 "believer" site_fresh
    = (Ok (mkBookmarkResponse (BookmarkData "believer") HTTP_201_CREATED),
       st1) /\
    UnBookmarkView_destroy 11 "believer" st1
    = (Ok (mkBookmarkResponse (BookmarkMessage "deleted")
                              HTTP_204_NO_CONTENT), site_fresh).
Proof.
  apply (@bookmark_then_unbookmark 11 "believer" site_fresh believer);
    reflexivity.
Defined.

(** X12. A second bookmark of one article by one user is refused with 400,
    and a second unbookmark with 404; neither writes.  A bookmark on a slug
    that selects no article raises [Http404] and writes nothing, whereas an
    unbookmark looks at the bookmarks only. *)
Theorem bookmark_repeats_refused u s st :
  (forall resp st1,
     BookmarkView_create u s st = (Ok resp, st1) ->
     bookmark_status resp = HTTP_201_CREATED ->
     BookmarkView_create u s st1
     = (Ok (mkBookmarkResponse (BookmarkMessage "article already bookmarked")
                               HTTP_400_BAD_REQUEST), st1)) /\
  (forall resp st1,
     UnBookmarkView_destroy u s st = (Ok resp, st1) ->
     bookmark_status resp = HTTP_204_NO_CONTENT ->
     UnBookmarkView_destroy u s st1
     = (Ok (mkBookmarkResponse (BookmarkMessage "bookmark not found")
                               HTTP_404_NOT_FOUND), st1)) /\
  (articles_by_slug s (site_db st) = [] ->
   BookmarkView_create u s st = (Raise Http404, st)).
Proof.
  split; [|split].
  - intros resp st1 E S.
    destruct (BookmarkView_create_cases u s st)
      as [[out E']|(article & G & B & E')]; rewrite E' in E.
    + injection E as -> <-. exfalso. revert E' S.
      unfold BookmarkView_create.
      destruct (get_object_or_404 _ _); [|discriminate].
      destruct (bookmarks_of u (slug a) st).
      * intros [= _ E']. exfalso. revert E'.
        generalize (next_pk bookmark_pk (bookmarks st)). intros n E'.
        apply (f_equal bookmarks) in E'. cbn in E'.
        apply (f_equal (@List.length _)) in E'. rewrite length_app in E'.
        simpl in E'. lia.
      * intros [= <-]. discriminate.
    + injection E as <- <-. unfold BookmarkView_create.
      cbn [site_db set_bookmarks]. rewrite G.
      cbn [get_object_or_404 queryset_get].
      unfold bookmarks_of in *. cbn [bookmarks set_bookmarks].
      rewrite filter_app, B. cbn [filter bookmark_slug bookmark_user].
      rewrite String.eqb_refl, Nat.eqb_refl. reflexivity.
  - intros resp st1 E S.
    destruct (UnBookmarkView_destroy_cases u s st) as [[_ E']|[_ E']];
      rewrite E' in E; injection E as <- <-; [discriminate|].
    unfold UnBookmarkView_destroy, bookmarks_of. cbn [bookmarks set_bookmarks].
    rewrite filter_none; [reflexivity|].
    intros b Ib. apply filter_In in Ib. destruct Ib as [_ K].
    unfold bookmark_key in K. apply negb_true_iff in K. exact K.
  - intros G. unfold BookmarkView_create. rewrite G. reflexivity.
Qed.

Lemma bookmark_repeats_refused_witness :
  let st1 := snd (BookmarkView_create 11 "believer" site_fresh) in
  BookmarkView_create 11 "believer" st1
  = (Ok (mkBookmarkResponse (BookmarkMessage "article already bookmarked")
                            HTTP_400_BAD_REQUEST), st1).
Proof.
  intros st1.
  eapply (proj1 (@bookmark_repeats_refused 11 "believer" site_fresh));
    reflexivity.
Defined.

Lemma listed_slugs_eq u st :
  listed_slugs u st
  = map bookmark_slug (filter (fun b => bookmark_user b =? u) (bookmarks st)).
Proof. reflexivity. Qed.

(** X13. The list of a user shows the bookmarks of that user and follows
    the two other views: a bookmark that succeeds adds its slug at the end
    of the caller's list, an unbookmark that succeeds takes the slug out of
    it, and the lists of the other users stay as they are. *)
Theorem bookmark_lists_follow u s st :
  (forall resp st1,
     BookmarkView_create u s st = (Ok resp, st1) ->
     bookmark_status resp = HTTP_201_CREATED ->
     listed_slugs u st1 = listed_slugs u st ++ [s] /\
     (forall u', u' <> u -> listed_slugs u' st1 = listed_slugs u' st)) /\
  (forall resp st1,
     UnBookmarkView_destroy u s st = (Ok resp, st1) ->
     bookmark_status resp = HTTP_204_NO_CONTENT ->
     listed_slugs u st1
     = filter (fun x => negb (String.eqb x s)) (listed_slugs u st) /\
     (forall u', u' <> u -> listed_slugs u' st1 = listed_slugs u' st)).
Proof.
  split.
  - intros resp st1 E S.
    destruct (BookmarkView_create_cases u s st)
      as [[out E']|(article & G & B & E')]; rewrite E' in E.
    + injection E as -> <-. exfalso. revert E' S.
      unfold BookmarkView_create.
      destruct (get_object_or_404 _ _); [|discriminate].
      destruct (bookmarks_of u (slug a) st).
      * intros [= _ E']. exfalso. revert E'.
        generalize (next_pk bookmark_pk (bookmarks st)). intros n E'.
        apply (f_equal bookmarks) in E'. cbn in E'.
        apply (f_equal (@List.length _)) in E'. rewrite length_app in E'.
        simpl in E'. lia.
      * intros [= <-]. discriminate.
    + injection E as <- <-. destruct (@articles_by_slug_In _ _ _ G) as [_ Sl].
      rewrite !listed_slugs_eq. cbn [bookmarks set_bookmarks]. split.
      * rewrite filter_app, map_app. cbn [filter bookmark_user].
        rewrite Nat.eqb_refl, Sl. reflexivity.
      * intros u' N. rewrite !listed_slugs_eq.
        cbn [bookmarks set_bookmarks]. rewrite filter_app.
        cbn [filter bookmark_user].
        assert ((u =? u') = false) as F by (apply Nat.eqb_neq; congruence).
        rewrite F, app_nil_r. reflexivity.
  - intros resp st1 E S.
    destruct (UnBookmarkView_destroy_cases u s st) as [[_ E']|[_ E']];
      rewrite E' in E; injection E as <- <-; [discriminate|].
    rewrite !listed_slugs_eq. cbn [bookmarks set_bookmarks]. split.
    + clear E' S. induction (bookmarks st) as [|b l IH]; [reflexivity|].
      cbn [filter]. unfold bookmark_key at 1.
      destruct (bookmark_user b =? u) eqn:Ub.
      * rewrite andb_true_r. cbn [map filter].
        destruct (String.eqb (bookmark_slug b) s) eqn:Sb; cbn [negb filter].
        -- exact IH.
        -- rewrite Ub. cbn [map]. rewrite IH. reflexivity.
      * rewrite andb_false_r. cbn [negb filter]. rewrite Ub. exact IH.
    + intros u' N. rewrite !listed_slugs_eq.
      cbn [bookmarks set_bookmarks]. f_equal.
      rewrite filter_comm. apply filter_all. intros b Ib.
      apply filter_In in Ib. destruct Ib as [_ Ub]. apply Nat.eqb_eq in Ub.
      unfold bookmark_key.
      assert ((bookmark_user b =? u) = false) as F
        by (apply Nat.eqb_neq; congruence).
      rewrite F, andb_false_r. reflexivity.
Qed.

Lemma bookmark_lists_follow_witness :
  let st1 := snd (BookmarkView_create 11 "believer" site_fresh) in
  listed_slugs 11 st1 = listed_slugs 11 site_fresh ++ ["believer"%string] /\
  (forall u', u' <> 11 -> listed_slugs u' st1 = listed_slugs u' site_fresh).
Proof.
  intros st1.
  eapply (proj1 (@bookmark_lists_follow 11 "believer" site_fresh));
    reflexivity.
Defined.

(** ** The comments of an article *)

(** X14. The list of the comments of a slug is never empty: it raises a
    validation error exactly when no comment has the slug, whether an
    article has it or not; otherwise it answers 200 with all the comments of
    the slug and no other, and with their number when they are two or
    more. *)
Theorem comments_list_never_empty s db :
  (ListCreateComment_list s db = Invalid (ValidationError "No comments found")
   <-> forall c, In c (comments db) -> comment_article c <> s) /\
  (forall resp,
     ListCreateComment_list s db = Valid resp ->
     comments_status resp = HTTP_200_OK /\
     exists cs,
       cs <> [] /\
       (forall c, In c cs <-> In c (comments db) /\ comment_article c = s) /\
       (comments_data resp = CommentBody cs /\ List.length cs = 1 \/
        comments_data resp = CommentsBody_ cs (List.length cs)
        /\ 2 <= List.length cs)).
Proof.
  unfold ListCreateComment_list, comments_of.
  assert (forall c,
            In c (filter (fun c => String.eqb (comment_article c) s)
                         (comments db))
            <-> In c (comments db) /\ comment_article c = s) as M.
  { intros c. rewrite filter_In, String.eqb_eq. tauto. }
  destruct (filter (fun c => String.eqb (comment_article c) s) (comments db))
    as [|a [|b l]] eqn:F; cbn [List.length Nat.eqb].
  - split.
    + split; [|reflexivity]. intros _ c I E. apply (proj2 (M c)). auto.
    + discriminate.
  - split.
    + split; [discriminate|]. intros H. exfalso.
      destruct (proj1 (M a)) as [I E]; [simpl; tauto|]. apply (H a I E).
    + intros resp [= <-]. split; [reflexivity|]. exists [a].
      split; [discriminate|]. split; [exact M|]. left. auto.
  - split.
    + split; [discriminate|]. intros H. exfalso.
      destruct (proj1 (M a)) as [I E]; [simpl; tauto|]. apply (H a I E).
    + intros resp [= <-]. split; [reflexivity|]. exists (a :: b :: l).
      split; [discriminate|]. split; [exact M|]. right.
      split; [reflexivity|]. simpl. lia.
Qed.

(** ** Tags *)

Lemma tags_named_In name st t :
  In t (tags_named name st) <-> In t (tags st) /\ tag t = name.
Proof. unfold tags_named. rewrite filter_In, String.eqb_eq. tauto. Qed.

Lemma tags_named_nil name st :
  tags_named name st = [] -> ~ In name (map tag (tags st)).
Proof.
  intros E I. apply in_map_iff in I. destruct I as (t & T & I).
  assert (In t (tags_named name st)) as J by (apply tags_named_In; auto).
  rewrite E in J. destruct J.
Qed.

Lemma NoDup_snoc {A : Type} (l : list A) (x : A) :
  NoDup l -> ~ In x l -> NoDup (l ++ [x]).
Proof.
  intros N I. apply NoDup_app; [exact N|constructor; [simpl; tauto|constructor]|].
  intros y Iy [<-|[]]. tauto.
Qed.

(** X15. The tag field of the article serializer turns a name into the tag
    of that name and back: the tag it returns has the name; asked again,
    it returns the same tag and writes nothing; and it keeps the names of
    the tag table distinct, making a row only for a name that has none. *)
Theorem tag_field_round_trip data_ st t st1 :
  to_internal_value data_ st = (Valid t, st1) ->
  to_representation t = data_ /\
  In t (tags st1) /\
  to_internal_value data_ st1 = (Valid t, st1) /\
  (NoDup (map tag (tags st)) -> NoDup (map tag (tags st1))) /\
  (In data_ (map tag (tags st)) -> st1 = st).
Proof.
  unfold to_internal_value.
  destruct (tags_named data_ st) as [|t0 [|t1 l]] eqn:F; intros E;
    try discriminate E; injection E as <- <-.
  - split; [reflexivity|]. split.
    { cbn [tags set_tags]. apply in_or_app. simpl. tauto. }
    split.
    { unfold tags_named in *. cbn [tags set_tags].
      rewrite filter_app, F. cbn [filter tag]. rewrite String.eqb_refl.
      reflexivity. }
    split.
    { intros N. cbn [tags set_tags]. rewrite map_app. cbn [map tag].
      apply NoDup_snoc; [exact N|]. apply tags_named_nil. exact F. }
    intros I. exfalso. apply (@tags_named_nil _ _ F I).
  - assert (In t0 (tags_named data_ st)) as I by (rewrite F; simpl; tauto).
    apply tags_named_In in I. destruct I as [I T].
    split; [exact T|]. split; [exact I|].
    split; [rewrite F; reflexivity|]. split; auto.
Qed.

Lemma tag_field_round_trip_witness :
  let st := mkSite db_fresh [] [mkTag 1 "coq"] [] in
  to_representation (mkTag 2 "django") = "django"%string /\
  In (mkTag 2 "django") (tags (set_tags [mkTag 1 "coq"; mkTag 2 "django"] st)).
Proof.
  intros st.
  destruct (@tag_field_round_trip "django" st (mkTag 2 "django")
              (set_tags [mkTag 1 "coq"; mkTag 2 "django"] st) eq_refl)
    as (R & I & _).
  split; [exact R|exact I].
Defined.

Lemma tags_add_effect article t st :
  site_db (tags_add article t st) = site_db st /\
  bookmarks (tags_add article t st) = bookmarks st /\
  tags (tags_add article t st) = tags st /\
  (exists l, article_tags (tags_add article t st) = article_tags st ++ l) /\
  In (article_pk article, t) (article_tags (tags_add article t st)).
Proof.
  unfold tags_add.
  destruct (existsb (link_eqb (article_pk article, t)) (article_tags st))
    eqn:X.
  - repeat split; try reflexivity.
    + exists []. rewrite app_nil_r. reflexivity.
    + apply existsb_exists in X. destruct X as ([a b] & I & K).
      unfold link_eqb in K. simpl in K. apply andb_true_iff in K.
      rewrite !Nat.eqb_eq in K. destruct K as [-> ->]. exact I.
  - repeat split; try reflexivity.
    + eexists. reflexivity.
    + cbn [article_tags set_article_tags]. apply in_or_app. simpl. tauto.
Qed.

(** What one turn of the loop does. *)
Lemma add_tag_effect article st name :
  let st' := add_tag article st name in
  site_db st' = site_db st /\ bookmarks st' = bookmarks st /\
  (exists l, tags st' = tags st ++ l) /\
  (exists l, article_tags st' = article_tags st ++ l) /\
  (NoDup (map tag (tags st)) -> NoDup (map tag (tags st'))) /\
  tagged (article_pk article) name st'.
Proof.
  unfold add_tag. destruct (tags_named name st) as [|t l] eqn:F.
  - cbn [site_db bookmarks tags article_tags set_article_tags set_tags].
    repeat split.
    + eexists. reflexivity.
    + eexists. reflexivity.
    + intros N. rewrite map_app. cbn [map tag].
      apply NoDup_snoc; [exact N|]. apply tags_named_nil. exact F.
    + exists (mkTag (next_pk tag_pk (tags st)) name).
      cbn [tags article_tags set_article_tags set_tags tag tag_pk].
      repeat split; apply in_or_app; simpl; tauto.
  - destruct (tags_add_effect article (tag_pk t) st)
      as (D & B & T & L & I).
    cbv zeta. rewrite D, B, T. repeat split.
    + exists []. rewrite app_nil_r. reflexivity.
    + exact L.
    + auto.
    + assert (In t (tags_named name st)) as J by (rewrite F; simpl; tauto).
      apply tags_named_In in J. destruct J as [J N].
      exists t. rewrite T. auto.
Qed.

Lemma tagged_mono a name st st' :
  (exists l, tags st' = tags st ++ l) ->
  (exists l, article_tags st' = article_tags st ++ l) ->
  tagged a name st -> tagged a name st'.
Proof.
  intros [l T] [k L] (t & I & N & J). exists t.
  rewrite T, L. repeat split; [apply in_or_app; auto|exact N|].
  apply in_or_app. auto.
Qed.

Lemma add_tags_effect article names st :
  let st' := fold_left (add_tag article) names st in
  site_db st' = site_db st /\ bookmarks st' = bookmarks st /\
  (exists l, tags st' = tags st ++ l) /\
  (exists l, article_tags st' = article_tags st ++ l) /\
  (NoDup (map tag (tags st)) -> NoDup (map tag (tags st'))) /\
  (forall name, In name names -> tagged (article_pk article) name st').
Proof.
  revert st. induction names as [|n names IH]; intros st; cbn [fold_left].
  - cbv zeta. repeat split; auto.
    + exists []. rewrite app_nil_r. reflexivity.
    + exists []. rewrite app_nil_r. reflexivity.
    + intros name [].
  - destruct (add_tag_effect article st n) as (D & B & [l T] & [k L] & N & G).
    destruct (IH (add_tag article st n))
      as (D' & B' & [l' T'] & [k' L'] & N' & G').
    cbv zeta. repeat split.
    + congruence.
    + congruence.
    + exists (l ++ l'). rewrite T', T, app_assoc. reflexivity.
    + exists (k ++ k'). rewrite L', L, app_assoc. reflexivity.
    + auto.
    + intros name [<-|I]; [|apply G'; exact I].
      apply tagged_mono with (st := add_tag article st n); eauto.
Qed.

(** X16. [ArticleSerializer.create] without the key of the tags in the
    request raises [KeyError] before it writes the article.  With the key,
    and with tags in the validated data (a request that carries [tagList]),
    it raises [TypeError] and writes nothing.  With the key and without
    tags in the validated data, it writes the article and, for every name
    of the request, the article carries a tag of that name afterwards; the
    tags and the pairs that were there stay, and the names of the tag table
    stay distinct: a tag row is made only for a name that has none, twice
    the same name in the request included. *)
Theorem article_create_tags
  (ArticleFields : Type) (new_article : nat -> nat -> ArticleFields -> DB -> Article)
  author validated_data st :
  (forall validated_tags,
     ArticleSerializer_create new_article author None validated_tags
       validated_data st
     = (Invalid (KeyError "tags"), st)) /\
  (forall names validated_tags,
     ArticleSerializer_create new_article author (Some names)
       (Some validated_tags) validated_data st
     = (Invalid (Uncaught TypeError), st)) /\
  (forall names, exists article st',
     ArticleSerializer_create new_article author (Some names) None
       validated_data st
     = (Valid article, st') /\
     articles (site_db st') = articles (site_db st) ++ [article] /\
     (forall name, In name names -> tagged (article_pk article) name st') /\
     (exists l, tags st' = tags st ++ l) /\
     (exists l, article_tags st' = article_tags st ++ l) /\
     (NoDup (map tag (tags st)) -> NoDup (map tag (tags st')))).
Proof.
  split; [reflexivity|]. split; [reflexivity|].
  intros names. unfold ArticleSerializer_create, Article_objects_create.
  set (article := new_article _ author validated_data (site_db st)).
  set (st1 := set_site_db _ st).
  destruct (add_tags_effect article names st1) as (D & B & T & L & N & G).
  exists article. eexists. split; [reflexivity|].
  split; [rewrite D; reflexivity|]. split; [exact G|].
  split; [exact T|]. split; [exact L|exact N].
Qed.
